(** * robusta_krr.main: command synthesis and configuration assembly

    A shallow embedding of [src/robusta_krr/main.py]: the type narrower
    [__process_type], the loop of [load_commands] that registers one typer
    command per strategy, and the invocation handler [run_strategy] that
    assembles a [Config] and hands over to the [Runner]. *)

From Stdlib Require Import ZArith Ascii String List Bool Lia.
From stdpp Require Import base option list.
Import ListNotations.

Local Open Scope string_scope.
Local Open Scope list_scope.

(** ** Exceptions and fallible computations *)

(** The Python exceptions the modelled code raises itself, and any other
    exception by the name of its class. *)
Inductive exn : Type :=
| AttributeError
| TypeError
| ValueError
| NameError
| PyException (class_name : string).

(** A computation returns a value or raises. *)
Inductive result (A : Type) : Type :=
| Ok (a : A)
| Raise (e : exn).

Arguments Ok {A} a.
Arguments Raise {A} e.

Definition bind {A B : Type} (m : result A) (k : A -> result B) : result B :=
  match m with
  | Ok a => k a
  | Raise e => Raise e
  end.

Declare Scope result_scope.
Delimit Scope result_scope with result.
Notation "x <- m ;;; k" := (bind m (fun x => k))
  (at level 100, m at next level, right associativity) : result_scope.
Local Open Scope result_scope.

(** A list comprehension whose element expression can raise: elements are
    evaluated left to right and the first exception aborts the whole. *)
Fixpoint mapM {A B : Type} (f : A -> result B) (l : list A) : result (list B) :=
  match l with
  | [] => Ok []
  | x :: xs =>
      y <- f x ;;;
      ys <- mapM f xs ;;;
      Ok (y :: ys)
  end.

(** ** Type objects *)

(** The objects that can stand where a type is expected.  [TOptional] is
    the bare special form [typing.Optional]; [TOptionalOf T] is the
    subscripted [Optional[T]], a different object; [TOther] covers every
    other type object (a class, a generic alias, a union), by its name. *)
Inductive pytype : Type :=
| Tint
| Tfloat
| Tstr
| Tbool
| Tdatetime
| TUUID
| TOptional
| TOptionalOf (T : pytype)
| TOther (name : string).

(** [_T in (int, float, str, bool, datetime, UUID)]: equality of type
    objects is identity. *)
Definition in_cli_primitives (_T : pytype) : bool :=
  match _T with
  | Tint | Tfloat | Tstr | Tbool | Tdatetime | TUUID => true
  | _ => false
  end.

(** [_T is Optional]: identity with the bare special form.  A subscripted
    [Optional[T]] is not that object. *)
Definition is_Optional (_T : pytype) : bool :=
  match _T with
  | TOptional => true
  | _ => false
  end.

(** [Optional[{x}]]: the subscript is a set literal, which is not a type,
    so the subscription raises [TypeError]. *)
Definition Optional_getitem_set (x : pytype) : result pytype :=
  Raise TypeError.

(** [__process_type].  In the second branch [_T.__args__[0]] is the first
    type argument of a subscripted alias; the bare special form has no
    [__args__] attribute. *)
Fixpoint process_type (_T : pytype) : result pytype :=
  if in_cli_primitives _T then Ok _T
  else if is_Optional _T then
    match _T with
    | TOptionalOf arg0 =>
        r <- process_type arg0 ;;;
        Optional_getitem_set r
    | _ => Raise AttributeError
    end
  else Ok Tstr.

(** The six CLI primitives. *)
Definition cli_primitives : list pytype :=
  [Tint; Tfloat; Tstr; Tbool; Tdatetime; TUUID].

(** ** Python values bound to options and schema defaults *)

Inductive pyvalue : Type :=
| PyNone
| PyBool (b : bool)
| PyInt (z : Z)
| PyStr (s : string)
| PyObj (repr : string).

(** ** Parameters and signatures ([inspect]) *)

Inductive ParameterKind : Type :=
| POSITIONAL_ONLY
| POSITIONAL_OR_KEYWORD
| VAR_POSITIONAL
| KEYWORD_ONLY
| VAR_KEYWORD.

Definition kind_rank (k : ParameterKind) : nat :=
  match k with
  | POSITIONAL_ONLY => 0
  | POSITIONAL_OR_KEYWORD => 1
  | VAR_POSITIONAL => 2
  | KEYWORD_ONLY => 3
  | VAR_KEYWORD => 4
  end.

(** [typer.Option(default, *param_decls, help=..., rich_help_panel=...,
    hidden=...)]. *)
Record OptionInfo : Type := mkOption {
  option_default : pyvalue;
  param_decls : list string;
  help : string;
  rich_help_panel : string;
  hidden : bool
}.

Inductive ParameterDefault : Type :=
| DefaultEmpty
| DefaultOption (o : OptionInfo).

(** The module starts with [from __future__ import annotations], so the
    annotations written in the signature of [run_strategy] are kept as
    text; the parameters added by [load_commands] carry a type object. *)
Inductive Annotation : Type :=
| AnnEmpty
| AnnText (s : string)
| AnnType (T : pytype).

Record Param : Type := mkParam {
  name : string;
  kind : ParameterKind;
  default : ParameterDefault;
  annotation : Annotation
}.

(** Identifiers of ASCII text: a letter or underscore, then letters,
    digits and underscores.  On ASCII text this is [str.isidentifier];
    it serves as the instance of that method in the examples. *)
Definition ascii_id_start (a : ascii) : bool :=
  let n := nat_of_ascii a in
  (Nat.leb 65 n && Nat.leb n 90) || (Nat.leb 97 n && Nat.leb n 122) || Nat.eqb n 95.

Definition ascii_id_continue (a : ascii) : bool :=
  let n := nat_of_ascii a in
  ascii_id_start a || (Nat.leb 48 n && Nat.leb n 57).

Definition ascii_isidentifier (s : string) : bool :=
  match s with
  | EmptyString => false
  | String a rest =>
      ascii_id_start a && forallb ascii_id_continue (list_ascii_of_string rest)
  end.

(** [keyword.kwlist] and [keyword.iskeyword]. *)
Definition kwlist : list string :=
  ["False"; "None"; "True"; "and"; "as"; "assert"; "async"; "await"; "break";
   "class"; "continue"; "def"; "del"; "elif"; "else"; "except"; "finally";
   "for"; "from"; "global"; "if"; "import"; "in"; "is"; "lambda"; "nonlocal";
   "not"; "or"; "pass"; "raise"; "return"; "try"; "while"; "with"; "yield"].

(** [x in l] on a list of strings. *)
Definition str_in (x : string) (l : list string) : bool :=
  existsb (String.eqb x) l.

Definition iskeyword (s : string) : bool := str_in s kwlist.

(** The validation loop of [inspect.Signature.__init__], reached through
    [signature.replace(parameters=...)]: kinds must not decrease, a
    positional parameter without default must not follow one with a
    default, and no name may occur twice. *)
Fixpoint validate_parameters (top_kind : nat) (seen_default : bool)
    (params : list string) (parameters : list Param) : result unit :=
  match parameters with
  | [] => Ok tt
  | param :: rest =>
      let k := kind_rank (kind param) in
      if Nat.ltb k top_kind then Raise ValueError
      else
        let top_kind' := if Nat.ltb top_kind k then k else top_kind in
        let positional := Nat.leb k (kind_rank POSITIONAL_OR_KEYWORD) in
        let missing := match default param with DefaultEmpty => true | _ => false end in
        if positional && missing && seen_default then Raise ValueError
        else
          let seen_default' :=
            if positional && negb missing then true else seen_default in
          if str_in (name param) params then Raise ValueError
          else validate_parameters top_kind' seen_default' (name param :: params) rest
  end.

Definition Signature_replace (parameters : list Param) : result (list Param) :=
  _ <- validate_parameters (kind_rank POSITIONAL_ONLY) false [] parameters ;;;
  Ok parameters.

(** ** The strategy registry (consumed) *)

(** A pydantic model field of a settings class: [field_meta.default],
    [field_meta.type_] and [field_meta.field_info.description]. *)
Record ModelField : Type := mkField {
  field_default : pyvalue;
  type_ : pytype;
  description : option string
}.

(** A strategy class, through [get_settings_type().__fields__.items()]. *)
Record StrategyType : Type := mkStrategy {
  settings_fields : list (string * ModelField)
}.

(** [f"{x}"] for a description: [None] formats as the text None. *)
Definition format_description (d : option string) : string :=
  match d with
  | Some s => s
  | None => "None"
  end.

(** ** Bound option values and the configuration *)

(** The value of a cluster, namespace or resource selector: [None], a
    text (the wildcard is the text of one star) or a list of names. *)
Inductive selection : Type :=
| SelNone
| SelStr (s : string)
| SelList (l : list string).

Definition selection_of (l : option (list string)) : selection :=
  match l with
  | None => SelNone
  | Some names => SelList names
  end.

(** The values bound to the parameters of [run_strategy] at a call.  The
    context parameter [ctx] is not read by the body and is left out. *)
Module Args.
Record t : Type := mk {
  kubeconfig : option string;
  clusters : option (list string);
  all_clusters : bool;
  namespaces : option (list string);
  resources : option (list string);
  selector : option string;
  prometheus_url : option string;
  prometheus_auth_header : option string;
  prometheus_other_headers : option (list string);
  prometheus_ssl_enabled : bool;
  prometheus_cluster_label : option string;
  prometheus_label : option string;
  eks_managed_prom : bool;
  eks_managed_prom_profile_name : option string;
  eks_access_key : option string;
  eks_secret_key : option string;
  eks_service_name : option string;
  eks_managed_prom_region : option string;
  coralogix_token : option string;
  openshift : bool;
  cpu_min_value : Z;
  memory_min_value : Z;
  max_workers : Z;
  format : string;
  show_cluster_name : bool;
  verbose : bool;
  quiet : bool;
  log_to_stderr : bool;
  width : option Z;
  file_output : option string;
  slack_output : option string;
  strategy_args : list (string * pyvalue)
}.
End Args.

(** Modelled from the spec: the class [Config] of
    [robusta_krr.core.models.config] is not part of the sources at hand.
    An instance is the record of the keyword values it was constructed
    from (the spec: the validated union of all bound option values, plus
    [other_args]); whether construction succeeds is decided by the schema
    validation, a parameter of the development below. *)
Module Config.
Record t : Type := mk {
  kubeconfig : option string;
  clusters : selection;
  namespaces : selection;
  resources : selection;
  selector : option string;
  prometheus_url : option string;
  prometheus_auth_header : option string;
  prometheus_other_headers : option (list string);
  prometheus_ssl_enabled : bool;
  prometheus_cluster_label : option string;
  prometheus_label : option string;
  eks_managed_prom : bool;
  eks_managed_prom_region : option string;
  eks_managed_prom_profile_name : option string;
  eks_access_key : option string;
  eks_secret_key : option string;
  eks_service_name : option string;
  coralogix_token : option string;
  openshift : bool;
  max_workers : Z;
  format : string;
  show_cluster_name : bool;
  verbose : bool;
  cpu_min_value : Z;
  memory_min_value : Z;
  quiet : bool;
  log_to_stderr : bool;
  width : option Z;
  file_output : option string;
  slack_output : option string;
  strategy : string;
  other_args : list (string * pyvalue)
}.
End Config.

(** ** The process: closure cells, the typer application, the current
    configuration and the observable events *)

Inductive cellval : Type :=
| CellStr (s : string)
| CellStrategy (t : StrategyType).

(** The body a function object runs; [run_strategy] carries the cell of
    its free variable [_strategy_name]. *)
Inductive Code : Type :=
| CodeVersion
| CodeRunStrategy (cell : nat).

Record Func : Type := mkFunc {
  fn_name : string;
  fn_signature : list Param;
  fn_code : Code
}.

(** What [app.command(rich_help_panel=...)(f)] registers. *)
Record CommandInfo : Type := mkCommand {
  callback : Func;
  command_panel : string
}.

Inductive Event : Type :=
| EvEcho (s : string)
| EvLogException (msg : string)
| EvRunnerRun (config_in_effect : option Config.t).

Record Process : Type := mkProcess {
  cells : list (option cellval);
  registered_commands : list CommandInfo;
  current_config : option Config.t;
  events : list Event
}.

Definition set_cells (f : list (option cellval) -> list (option cellval))
    (p : Process) : Process :=
  mkProcess (f (cells p)) (registered_commands p) (current_config p) (events p).

(** A new cell, unbound or bound, at the end of the store. *)
Definition alloc (v : option cellval) (p : Process) : nat * Process :=
  (length (cells p), set_cells (fun cs => cs ++ [v]) p).

Definition store (c : nat) (v : cellval) (p : Process) : Process :=
  set_cells (fun cs => <[c := Some v]> cs) p.

(** Reading a variable through its cell; an unbound cell raises. *)
Definition load_str (c : nat) (p : Process) : result string :=
  match cells p !! c with
  | Some (Some (CellStr s)) => Ok s
  | _ => Raise NameError
  end.

Definition load_strategy (c : nat) (p : Process) : result StrategyType :=
  match cells p !! c with
  | Some (Some (CellStrategy t)) => Ok t
  | _ => Raise NameError
  end.

(** [app.command(rich_help_panel=panel)(f)]. *)
Definition app_command (panel : string) (f : Func) (p : Process) : Process :=
  mkProcess (cells p) (registered_commands p ++ [mkCommand f panel])
            (current_config p) (events p).

(** [Config.set_config(config)]. *)
Definition set_config (config : Config.t) (p : Process) : Process :=
  mkProcess (cells p) (registered_commands p) (Some config) (events p).

Definition emit (e : Event) (p : Process) : Process :=
  mkProcess (cells p) (registered_commands p) (current_config p) (events p ++ [e]).

(** [x in l] where [l] may be [None]: [None] is not iterable. *)
Definition py_in (x : string) (l : option (list string)) : result bool :=
  match l with
  | None => Raise TypeError
  | Some names => Ok (str_in x names)
  end.

(** The keyword arguments of the call [Config(...)] in [run_strategy],
    evaluated in the order they are written. *)
Definition Config_kwargs (_strategy_name : string) (a : Args.t) : result Config.t :=
  let clusters_v :=
    if Args.all_clusters a then SelStr "*" else selection_of (Args.clusters a) in
  star_n <- py_in "*" (Args.namespaces a) ;;;
  let namespaces_v :=
    if star_n : bool then SelStr "*" else selection_of (Args.namespaces a) in
  star_r <- py_in "*" (Args.resources a) ;;;
  let resources_v :=
    if star_r : bool then SelStr "*" else selection_of (Args.resources a) in
  Ok {|
       Config.kubeconfig := Args.kubeconfig a;
       Config.clusters := clusters_v;
       Config.namespaces := namespaces_v;
       Config.resources := resources_v;
       Config.selector := Args.selector a;
       Config.prometheus_url := Args.prometheus_url a;
       Config.prometheus_auth_header := Args.prometheus_auth_header a;
       Config.prometheus_other_headers := Args.prometheus_other_headers a;
       Config.prometheus_ssl_enabled := Args.prometheus_ssl_enabled a;
       Config.prometheus_cluster_label := Args.prometheus_cluster_label a;
       Config.prometheus_label := Args.prometheus_label a;
       Config.eks_managed_prom := Args.eks_managed_prom a;
       Config.eks_managed_prom_region := Args.eks_managed_prom_region a;
       Config.eks_managed_prom_profile_name := Args.eks_managed_prom_profile_name a;
       Config.eks_access_key := Args.eks_access_key a;
       Config.eks_secret_key := Args.eks_secret_key a;
       Config.eks_service_name := Args.eks_service_name a;
       Config.coralogix_token := Args.coralogix_token a;
       Config.openshift := Args.openshift a;
       Config.max_workers := Args.max_workers a;
       Config.format := Args.format a;
       Config.show_cluster_name := Args.show_cluster_name a;
       Config.verbose := Args.verbose a;
       Config.cpu_min_value := Args.cpu_min_value a;
       Config.memory_min_value := Args.memory_min_value a;
       Config.quiet := Args.quiet a;
       Config.log_to_stderr := Args.log_to_stderr a;
       Config.width := Args.width a;
       Config.file_output := Args.file_output a;
       Config.slack_output := Args.slack_output a;
       Config.strategy := _strategy_name;
       Config.other_args := Args.strategy_args a
     |}.

(** ** Inputs used in the examples *)

(** Bound values for the examples: what the handler receives from a
    command line that gives the namespaces and resources shown and
    nothing else, when the command-line layer hands over an empty list for
    a list option that is not mentioned. *)
Definition sample_args (namespaces resources : list string)
    (strategy_args : list (string * pyvalue)) : Args.t :=
  {|
     Args.kubeconfig := None;
     Args.clusters := Some [];
     Args.all_clusters := false;
     Args.namespaces := Some namespaces;
     Args.resources := Some resources;
     Args.selector := None;
     Args.prometheus_url := None;
     Args.prometheus_auth_header := None;
     Args.prometheus_other_headers := Some [];
     Args.prometheus_ssl_enabled := false;
     Args.prometheus_cluster_label := None;
     Args.prometheus_label := None;
     Args.eks_managed_prom := false;
     Args.eks_managed_prom_profile_name := None;
     Args.eks_access_key := None;
     Args.eks_secret_key := None;
     Args.eks_service_name := Some "aps";
     Args.eks_managed_prom_region := None;
     Args.coralogix_token := None;
     Args.openshift := false;
     Args.cpu_min_value := 10%Z;
     Args.memory_min_value := 100%Z;
     Args.max_workers := 10%Z;
     Args.format := "table";
     Args.show_cluster_name := false;
     Args.verbose := false;
     Args.quiet := false;
     Args.log_to_stderr := false;
     Args.width := None;
     Args.file_output := None;
     Args.slack_output := None;
     Args.strategy_args := strategy_args
  |}.

Definition set_clusters (all : bool) (cs : option (list string)) (a : Args.t) : Args.t :=
  Args.mk (Args.kubeconfig a) cs all (Args.namespaces a) (Args.resources a)
    (Args.selector a) (Args.prometheus_url a) (Args.prometheus_auth_header a)
    (Args.prometheus_other_headers a) (Args.prometheus_ssl_enabled a)
    (Args.prometheus_cluster_label a) (Args.prometheus_label a)
    (Args.eks_managed_prom a) (Args.eks_managed_prom_profile_name a)
    (Args.eks_access_key a) (Args.eks_secret_key a) (Args.eks_service_name a)
    (Args.eks_managed_prom_region a) (Args.coralogix_token a) (Args.openshift a)
    (Args.cpu_min_value a) (Args.memory_min_value a) (Args.max_workers a)
    (Args.format a) (Args.show_cluster_name a) (Args.verbose a) (Args.quiet a)
    (Args.log_to_stderr a) (Args.width a) (Args.file_output a)
    (Args.slack_output a) (Args.strategy_args a).

Definition set_lists (ns rs : option (list string)) (a : Args.t) : Args.t :=
  Args.mk (Args.kubeconfig a) (Args.clusters a) (Args.all_clusters a) ns rs
    (Args.selector a) (Args.prometheus_url a) (Args.prometheus_auth_header a)
    (Args.prometheus_other_headers a) (Args.prometheus_ssl_enabled a)
    (Args.prometheus_cluster_label a) (Args.prometheus_label a)
    (Args.eks_managed_prom a) (Args.eks_managed_prom_profile_name a)
    (Args.eks_access_key a) (Args.eks_secret_key a) (Args.eks_service_name a)
    (Args.eks_managed_prom_region a) (Args.coralogix_token a) (Args.openshift a)
    (Args.cpu_min_value a) (Args.memory_min_value a) (Args.max_workers a)
    (Args.format a) (Args.show_cluster_name a) (Args.verbose a) (Args.quiet a)
    (Args.log_to_stderr a) (Args.width a) (Args.file_output a)
    (Args.slack_output a) (Args.strategy_args a).

Definition set_cpu_min_value (z : Z) (a : Args.t) : Args.t :=
  Args.mk (Args.kubeconfig a) (Args.clusters a) (Args.all_clusters a)
    (Args.namespaces a) (Args.resources a)
    (Args.selector a) (Args.prometheus_url a) (Args.prometheus_auth_header a)
    (Args.prometheus_other_headers a) (Args.prometheus_ssl_enabled a)
    (Args.prometheus_cluster_label a) (Args.prometheus_label a)
    (Args.eks_managed_prom a) (Args.eks_managed_prom_profile_name a)
    (Args.eks_access_key a) (Args.eks_secret_key a) (Args.eks_service_name a)
    (Args.eks_managed_prom_region a) (Args.coralogix_token a) (Args.openshift a)
    z (Args.memory_min_value a) (Args.max_workers a)
    (Args.format a) (Args.show_cluster_name a) (Args.verbose a) (Args.quiet a)
    (Args.log_to_stderr a) (Args.width a) (Args.file_output a)
    (Args.slack_output a) (Args.strategy_args a).

(** A schema validation for the examples: the two recommendation floors
    must not be negative. *)
Definition floors_validate (c : Config.t) : bool :=
  Z.leb 0 (Config.cpu_min_value c) && Z.leb 0 (Config.memory_min_value c).

(** Three strategies registered in the order A, B, C, and the strategy
    named simple. *)
Definition settings_A : StrategyType :=
  mkStrategy
    [("history_duration", mkField (PyObj "336.0") Tfloat (Some "The duration of the history data to use (in hours)."));
     ("points_required", mkField (PyInt 100) Tint None)].

Definition settings_B : StrategyType :=
  mkStrategy [("allow_hpa", mkField (PyBool false) Tbool (Some "Whether to calculate recommendations even when there is an HPA scaler defined on that resource."))].

Definition settings_C : StrategyType :=
  mkStrategy [("limits", mkField PyNone (TOther "ResourceLimits") (Some "Structured limits."))].

Definition registry_ABC : list (string * StrategyType) :=
  [("A", settings_A); ("B", settings_B); ("C", settings_C)].

Definition registry_simple : list (string * StrategyType) :=
  [("simple", settings_A)].

(** A settings field without description. *)
Definition field_without_description : string * ModelField :=
  ("points_required", mkField (PyInt 100) Tint None).

(** A process in which cell 0 holds a strategy name, as the frame of one
    call of [strategy_wrapper] leaves it. *)
Definition process_with_name (s : string) : Process :=
  mkProcess [Some (CellStr s)] [] None [].

(** A Runner that returns, and one that raises. *)
Definition runner_returns : option Config.t -> result unit := fun _ => Ok tt.

Definition runner_raises : option Config.t -> result unit :=
  fun _ => Raise (PyException "ApiException").

Definition formatters_sample : list string := ["json"; "pprint"; "table"; "yaml"].

Definition version_sample : string := "1.0.0".

(** Which parameters of a signature are command-line options. *)
Definition is_option (prm : Param) : bool :=
  match default prm with
  | DefaultOption _ => true
  | DefaultEmpty => false
  end.

(** The option the specification expects for a settings field, with [T]
    the narrowed type. *)
Definition field_option (item : string * ModelField) (T : pytype) : Param :=
  mkParam (fst item) KEYWORD_ONLY
    (DefaultOption
       (mkOption (field_default (snd item))
                 [String.append "--" (fst item)]
                 (format_description (description (snd item)))
                 "Strategy Settings" false))
    (AnnType T).

(** Binding a parameter the command line does not mention: the default
    written in its option, read at the type of the parameter. *)
Definition as_flag (v : pyvalue) : option bool :=
  match v with PyBool b => Some b | _ => None end.

Definition as_int (v : pyvalue) : option Z :=
  match v with PyInt z => Some z | _ => None end.

Definition as_text (v : pyvalue) : option string :=
  match v with PyStr s => Some s | _ => None end.

Definition as_optional {A : Type} (conv : pyvalue -> option A) (v : pyvalue)
    : option (option A) :=
  match v with
  | PyNone => Some None
  | _ => match conv v with Some x => Some (Some x) | None => None end
  end.


Section Main.

(** The parts of the repository the module imports: the schema validation
    run by [Config(...)] ([true]: the instance is constructed, [false]:
    [ValidationError]), the names of the registered formatters and the
    version text. *)
Variable Config_validate : Config.t -> bool.
Variable formatters_list_available : list string.
Variable get_version : string.

(** What lies outside the repository: [str.isidentifier], whose Unicode
    tables are not modelled; the outcome of running the [Runner] under a
    configuration (it returns, or raises); and the value the command-line
    layer hands over for a list option that the command line does not
    mention ([None] or a list, depending on the version of typer). *)
Variable isidentifier : string -> bool.
Variable Runner_outcome : option Config.t -> result unit.
Variable unset_list : option (list string).

(** [inspect.Parameter(name=..., kind=..., default=..., annotation=...)]:
    a default on a variadic parameter and a name that is a keyword or not
    an identifier raise [ValueError]. *)
Definition Parameter_new (n : string) (k : ParameterKind)
    (d : ParameterDefault) (a : Annotation) : result Param :=
  match d, k with
  | DefaultOption _, (VAR_POSITIONAL | VAR_KEYWORD) => Raise ValueError
  | _, _ =>
      let is_keyword :=
        iskeyword n && negb (Nat.eqb (kind_rank k) (kind_rank POSITIONAL_ONLY)) in
      if is_keyword || negb (isidentifier n) then Raise ValueError
      else Ok (mkParam n k d a)
  end.

(** The element expression of the comprehension in [strategy_wrapper]:
    the option of one settings field.  The arguments of
    [inspect.Parameter] are evaluated before the call. *)
Definition strategy_parameter (item : string * ModelField) : result Param :=
  let (field_name, field_meta) := item in
  let d := DefaultOption
             (mkOption (field_default field_meta)
                       [String.append "--" field_name]
                       (format_description (description field_meta))
                       "Strategy Settings"
                       false) in
  a <- process_type (type_ field_meta) ;;;
  Parameter_new field_name KEYWORD_ONLY d (AnnType a).

(** The help text as the specification words it: the description, or the
    empty text when there is none. *)
Definition help_or_empty (item : string * ModelField) : Prop :=
  forall prm o,
    strategy_parameter item = Ok prm ->
    default prm = DefaultOption o ->
    help o = match description (snd item) with Some d => d | None => "" end.

(** [runner = Runner()] and [asyncio.run(runner.run())]: the runner is
    started on the configuration current at that moment, and the call
    returns or raises as the runner does.  It stands in the [else] branch
    of the [try], so nothing catches what it raises. *)
Definition Runner_run (p : Process) : result unit * Process :=
  (Runner_outcome (current_config p), emit (EvRunnerRun (current_config p)) p).


Definition global_option (n ann : string) (d : pyvalue) (decls : list string)
    (h panel : string) (hid : bool) : Param :=
  mkParam n POSITIONAL_OR_KEYWORD (DefaultOption (mkOption d decls h panel hid))
          (AnnText ann).

(** The options written in the signature of [run_strategy]. *)
Definition global_options : list Param :=
[
 global_option "kubeconfig" "Optional[str]" PyNone ["--kubeconfig"; "-k"]
   "Path to kubeconfig file. If not provided, will attempt to find it."
   "Kubernetes Settings" false;
 global_option "clusters" "List[str]" PyNone ["--context"; "--cluster"; "-c"]
   "List of clusters to run on. By default, will run on the current cluster. Use --all-clusters to run on all clusters."
   "Kubernetes Settings" false;
 global_option "all_clusters" "bool" (PyBool false) ["--all-clusters"]
   "Run on all clusters. Overrides --context."
   "Kubernetes Settings" false;
 global_option "namespaces" "List[str]" PyNone ["--namespace"; "-n"]
   "List of namespaces to run on. By default, will run on all namespaces except 'kube-system'."
   "Kubernetes Settings" false;
 global_option "resources" "List[str]" PyNone ["--resource"; "-r"]
   "List of resources to run on (Deployment, StatefulSet, DaemonSet, Job, Rollout). By default, will run on all resources. Case insensitive."
   "Kubernetes Settings" false;
 global_option "selector" "Optional[str]" PyNone ["--selector"; "-s"]
   "Selector (label query) to filter on, supports '=', '==', and '!='.(e.g. -s key1=value1,key2=value2). Matching objects must satisfy all of the specified label constraints."
   "Kubernetes Settings" false;
 global_option "prometheus_url" "Optional[str]" PyNone ["--prometheus-url"; "-p"]
   "Prometheus URL. If not provided, will attempt to find it in kubernetes cluster"
   "Prometheus Settings" false;
 global_option "prometheus_auth_header" "Optional[str]" PyNone ["--prometheus-auth-header"]
   "Prometheus authentication header."
   "Prometheus Settings" false;
 global_option "prometheus_other_headers" "Optional[List[str]]" PyNone ["--prometheus-headers"; "-H"]
   "Additional headers to add to Prometheus requests. Format as 'key: value', for example 'X-MyHeader: 123'. Trailing whitespaces will be stripped."
   "Prometheus Settings" false;
 global_option "prometheus_ssl_enabled" "bool" (PyBool false) ["--prometheus-ssl-enabled"]
   "Enable SSL for Prometheus requests."
   "Prometheus Settings" false;
 global_option "prometheus_cluster_label" "Optional[str]" PyNone ["--prometheus-cluster-label"; "-l"]
   "The label in prometheus for your cluster.(Only relevant for centralized prometheus)"
   "Prometheus Settings" false;
 global_option "prometheus_label" "str" PyNone ["--prometheus-label"]
   "The label in prometheus used to differentiate clusters. (Only relevant for centralized prometheus)"
   "Prometheus Settings" false;
 global_option "eks_managed_prom" "bool" (PyBool false) ["--eks-managed-prom"]
   "Adds additional signitures for eks prometheus connection."
   "Prometheus EKS Settings" false;
 global_option "eks_managed_prom_profile_name" "Optional[str]" PyNone ["--eks-profile-name"]
   "Sets the profile name for eks prometheus connection."
   "Prometheus EKS Settings" false;
 global_option "eks_access_key" "Optional[str]" PyNone ["--eks-access-key"]
   "Sets the access key for eks prometheus connection."
   "Prometheus EKS Settings" false;
 global_option "eks_secret_key" "Optional[str]" PyNone ["--eks-secret-key"]
   "Sets the secret key for eks prometheus connection."
   "Prometheus EKS Settings" false;
 global_option "eks_service_name" "Optional[str]" (PyStr "aps") ["--eks-service-name"]
   "Sets the service name for eks prometheus connection."
   "Prometheus EKS Settings" false;
 global_option "eks_managed_prom_region" "Optional[str]" PyNone ["--eks-managed-prom-region"]
   "Sets the region for eks prometheus connection."
   "Prometheus EKS Settings" false;
 global_option "coralogix_token" "Optional[str]" PyNone ["--coralogix-token"]
   "Adds the token needed to query Coralogix managed prometheus."
   "Prometheus Coralogix Settings" false;
 global_option "openshift" "bool" (PyBool false) ["--openshift"]
   "Used when running by Robusta inside an OpenShift cluster."
   "Prometheus Openshift Settings" true;
 global_option "cpu_min_value" "int" (PyInt 10) ["--cpu-min"]
   "Sets the minimum recommended cpu value in millicores."
   "Recommendation Settings" false;
 global_option "memory_min_value" "int" (PyInt 100) ["--mem-min"]
   "Sets the minimum recommended memory value in MB."
   "Recommendation Settings" false;
 global_option "max_workers" "int" (PyInt 10) ["--max-workers"; "-w"]
   "Max workers to use for async requests."
   "Threading Settings" false;
 global_option "format" "str" (PyStr "table") ["--formatter"; "-f"]
   (String.append "Output formatter (" (String.append (String.concat ", " formatters_list_available) ")"))
   "Logging Settings" false;
 global_option "show_cluster_name" "bool" (PyBool false) ["--show-cluster-name"]
   "In table output, always show the cluster name even for a single cluster"
   "Output Settings" false;
 global_option "verbose" "bool" (PyBool false) ["--verbose"; "-v"]
   "Enable verbose mode"
   "Logging Settings" false;
 global_option "quiet" "bool" (PyBool false) ["--quiet"; "-q"]
   "Enable quiet mode"
   "Logging Settings" false;
 global_option "log_to_stderr" "bool" (PyBool false) ["--logtostderr"]
   "Pass logs to stderr"
   "Logging Settings" false;
 global_option "width" "Optional[int]" PyNone ["--width"]
   "Width of the output. Will use console width by default."
   "Logging Settings" false;
 global_option "file_output" "Optional[str]" PyNone ["--fileoutput"]
   "Print the output to a file"
   "Output Settings" false;
 global_option "slack_output" "Optional[str]" PyNone ["--slackoutput"]
   "Send to output to a slack channel, must have SLACK_BOT_TOKEN"
   "Output Settings" false
].

(** [inspect.signature(run_strategy)] before it is replaced. *)
Definition run_strategy_signature : list Param :=
  mkParam "ctx" POSITIONAL_OR_KEYWORD DefaultEmpty (AnnText "typer.Context")
    :: global_options
    ++ [mkParam "strategy_args" VAR_KEYWORD DefaultEmpty AnnEmpty].

(** The handler.  The text in first position of the body reads
    [_strategy_name]; the [try] catches [ValidationError] only, so any
    other exception leaves the handler. *)
Definition run_strategy (cell : nat) (a : Args.t) (p : Process)
    : result unit * Process :=
  match load_str cell p with
  | Raise e => (Raise e, p)
  | Ok _strategy_name =>
      match Config_kwargs _strategy_name a with
      | Raise e => (Raise e, p)
      | Ok kwargs =>
          if Config_validate kwargs then
            let p1 := set_config kwargs p in
            Runner_run p1
          else
            (Ok tt, emit (EvLogException "Error occured while parsing arguments") p)
      end
  end.

(** [version]. *)
Definition version (p : Process) : result unit * Process :=
  (Ok tt, emit (EvEcho get_version) p).

Definition call (f : Func) (a : Args.t) (p : Process) : result unit * Process :=
  match fn_code f with
  | CodeVersion => version p
  | CodeRunStrategy cell => run_strategy cell a p
  end.

(** One call of [strategy_wrapper()]: the frame of the call gets its own
    cell for [_strategy_name], bound to the default computed when the
    wrapper was defined; [strategy_name] and [strategy_type] are read
    from the cells of the enclosing frame of [load_commands]. *)
Definition strategy_wrapper (c_strategy_name c_strategy_type : nat)
    (_strategy_name : string) (p : Process) : result Process :=
  let (cell, p1) := alloc (Some (CellStr _strategy_name)) p in
  let run_strategy0 := mkFunc "run_strategy" run_strategy_signature (CodeRunStrategy cell) in
  strategy_name <- load_str c_strategy_name p1 ;;;
  let run_strategy1 :=
    mkFunc strategy_name (fn_signature run_strategy0) (fn_code run_strategy0) in
  let signature := fn_signature run_strategy1 in
  strategy_type <- load_strategy c_strategy_type p1 ;;;
  added <- mapM strategy_parameter (settings_fields strategy_type) ;;;
  replaced <- Signature_replace (removelast signature ++ added) ;;;
  let run_strategy2 :=
    mkFunc (fn_name run_strategy1) replaced (fn_code run_strategy1) in
  Ok (app_command "Strategies" run_strategy2 p1).

(** The loop of [load_commands] over [BaseStrategy.get_all().items()]:
    each iteration rebinds the two loop variables, defines the wrapper
    (its default is evaluated at that point) and calls it. *)
Fixpoint load_commands_loop (c_strategy_name c_strategy_type : nat)
    (items : list (string * StrategyType)) (p : Process) : result Process :=
  match items with
  | [] => Ok p
  | (strategy_name, strategy_type) :: rest =>
      let p1 := store c_strategy_type (CellStrategy strategy_type)
                  (store c_strategy_name (CellStr strategy_name) p) in
      default_name <- load_str c_strategy_name p1 ;;;
      p2 <- strategy_wrapper c_strategy_name c_strategy_type default_name p1 ;;;
      load_commands_loop c_strategy_name c_strategy_type rest p2
  end.

Definition load_commands (registry : list (string * StrategyType))
    (p : Process) : result Process :=
  let (c_strategy_name, p1) := alloc None p in
  let (c_strategy_type, p2) := alloc None p1 in
  load_commands_loop c_strategy_name c_strategy_type registry p2.

(** The application when the module has been imported: [version] is the
    one registered command. *)
Definition app_initial : Process :=
  mkProcess [] [mkCommand (mkFunc "version" [] CodeVersion) "Utils"] None [].

(** The parameters every command keeps from the signature of
    [run_strategy]: all but the trailing [**strategy_args]. *)
Definition fixed_parameters : list Param :=
  mkParam "ctx" POSITIONAL_OR_KEYWORD DefaultEmpty (AnnText "typer.Context")
    :: global_options.

(** The default written in the option of a global parameter. *)
Definition declared_default (n : string) : option pyvalue :=
  match List.find (fun prm => String.eqb (name prm) n) global_options with
  | Some prm =>
      match default prm with
      | DefaultOption o => Some (option_default o)
      | DefaultEmpty => None
      end
  | None => None
  end.

(** A list option has [None] as written default; what the handler receives
    for it when the command line does not mention it is what the
    command-line layer hands over. *)
Definition as_list (v : pyvalue) : option (option (list string)) :=
  match v with PyNone => Some unset_list | _ => None end.

Definition bound_default {A : Type} (conv : pyvalue -> option A) (n : string)
    : option A :=
  match declared_default n with
  | Some v => conv v
  | None => None
  end.

(** The values bound by an invocation that gives no global option: every
    parameter of the signature holds the default written in its option.
    The strategy keyword values are those of the strategy's own options. *)
Definition default_args (strategy_args : list (string * pyvalue)) : option Args.t :=
  v_kubeconfig ← bound_default (as_optional as_text) "kubeconfig";
  v_clusters ← bound_default as_list "clusters";
  v_all_clusters ← bound_default as_flag "all_clusters";
  v_namespaces ← bound_default as_list "namespaces";
  v_resources ← bound_default as_list "resources";
  v_selector ← bound_default (as_optional as_text) "selector";
  v_prometheus_url ← bound_default (as_optional as_text) "prometheus_url";
  v_prometheus_auth_header ← bound_default (as_optional as_text) "prometheus_auth_header";
  v_prometheus_other_headers ← bound_default as_list "prometheus_other_headers";
  v_prometheus_ssl_enabled ← bound_default as_flag "prometheus_ssl_enabled";
  v_prometheus_cluster_label ← bound_default (as_optional as_text) "prometheus_cluster_label";
  v_prometheus_label ← bound_default (as_optional as_text) "prometheus_label";
  v_eks_managed_prom ← bound_default as_flag "eks_managed_prom";
  v_eks_managed_prom_profile_name ← bound_default (as_optional as_text) "eks_managed_prom_profile_name";
  v_eks_access_key ← bound_default (as_optional as_text) "eks_access_key";
  v_eks_secret_key ← bound_default (as_optional as_text) "eks_secret_key";
  v_eks_service_name ← bound_default (as_optional as_text) "eks_service_name";
  v_eks_managed_prom_region ← bound_default (as_optional as_text) "eks_managed_prom_region";
  v_coralogix_token ← bound_default (as_optional as_text) "coralogix_token";
  v_openshift ← bound_default as_flag "openshift";
  v_cpu_min_value ← bound_default as_int "cpu_min_value";
  v_memory_min_value ← bound_default as_int "memory_min_value";
  v_max_workers ← bound_default as_int "max_workers";
  v_format ← bound_default as_text "format";
  v_show_cluster_name ← bound_default as_flag "show_cluster_name";
  v_verbose ← bound_default as_flag "verbose";
  v_quiet ← bound_default as_flag "quiet";
  v_log_to_stderr ← bound_default as_flag "log_to_stderr";
  v_width ← bound_default (as_optional as_int) "width";
  v_file_output ← bound_default (as_optional as_text) "file_output";
  v_slack_output ← bound_default (as_optional as_text) "slack_output";
  Some {|
         Args.kubeconfig := v_kubeconfig;
         Args.clusters := v_clusters;
         Args.all_clusters := v_all_clusters;
         Args.namespaces := v_namespaces;
         Args.resources := v_resources;
         Args.selector := v_selector;
         Args.prometheus_url := v_prometheus_url;
         Args.prometheus_auth_header := v_prometheus_auth_header;
         Args.prometheus_other_headers := v_prometheus_other_headers;
         Args.prometheus_ssl_enabled := v_prometheus_ssl_enabled;
         Args.prometheus_cluster_label := v_prometheus_cluster_label;
         Args.prometheus_label := v_prometheus_label;
         Args.eks_managed_prom := v_eks_managed_prom;
         Args.eks_managed_prom_profile_name := v_eks_managed_prom_profile_name;
         Args.eks_access_key := v_eks_access_key;
         Args.eks_secret_key := v_eks_secret_key;
         Args.eks_service_name := v_eks_service_name;
         Args.eks_managed_prom_region := v_eks_managed_prom_region;
         Args.coralogix_token := v_coralogix_token;
         Args.openshift := v_openshift;
         Args.cpu_min_value := v_cpu_min_value;
         Args.memory_min_value := v_memory_min_value;
         Args.max_workers := v_max_workers;
         Args.format := v_format;
         Args.show_cluster_name := v_show_cluster_name;
         Args.verbose := v_verbose;
         Args.quiet := v_quiet;
         Args.log_to_stderr := v_log_to_stderr;
         Args.width := v_width;
         Args.file_output := v_file_output;
         Args.slack_output := v_slack_output;
         Args.strategy_args := strategy_args
       |}.

(** What [load_commands] has registered for one registry item, seen in
    the process [p'] left by [load_commands]. *)
Definition command_of (p' : Process) (item : string * StrategyType)
    (cmd : CommandInfo) : Prop :=
  exists cell added,
    cmd = mkCommand (mkFunc (fst item) (fixed_parameters ++ added)
                            (CodeRunStrategy cell)) "Strategies" /\
    load_str cell p' = Ok (fst item) /\
    mapM strategy_parameter (settings_fields (snd item)) = Ok added /\
    validate_parameters 0 false [] (fixed_parameters ++ added) = Ok tt.

(** The answer of [__process_type] on a type object that is not the bare
    special form. *)
Definition narrowed (T : pytype) : pytype :=
  if in_cli_primitives T then T else Tstr.

(** A settings schema the synthesis accepts: field names are identifiers,
    no keywords, pairwise distinct and different from the fixed parameter
    names, and no field type is the bare special form. *)
Definition well_formed_settings (ty : StrategyType) : Prop :=
  Forall (fun f =>
            isidentifier (fst f) = true /\ iskeyword (fst f) = false /\
            is_Optional (type_ (snd f)) = false /\
            ~ In (fst f) (map name fixed_parameters))
         (settings_fields ty) /\
  NoDup (map fst (settings_fields ty)).

(** ** Properties of the type narrower *)

Lemma in_cli_primitives_In (_T : pytype) :
  in_cli_primitives _T = true -> In _T cli_primitives.
Proof.
  destruct _T; simpl; intros H; try discriminate H;
    repeat first [left; reflexivity | right].
Qed.

Lemma in_cli_primitives_In_inv (_T : pytype) :
  In _T cli_primitives -> in_cli_primitives _T = true.
Proof.
  simpl. intros H. repeat destruct H as [H|H]; try (subst _T; reflexivity).
  contradiction.
Qed.

Lemma process_type_unfold (_T : pytype) :
  is_Optional _T = false ->
  process_type _T = if in_cli_primitives _T then Ok _T else Ok Tstr.
Proof.
  destruct _T; simpl; intros H; try reflexivity; discriminate H.
Qed.

(** C2: the narrower does not unwrap a subscripted optional.  The test
    [_T is Optional] fails for [Optional[int]], so the fallback answers
    [str] while [int] itself narrows to [int]: the two results differ. *)
Theorem process_type_optional_int_diverges :
  process_type (TOptionalOf Tint) = Ok Tstr /\
  process_type Tint = Ok Tint /\
  process_type (TOptionalOf Tint) <> process_type Tint /\
  (forall T, process_type (TOptionalOf T) = Ok Tstr).
Proof.
  repeat split; try reflexivity.
  simpl. intros H. inversion H.
Qed.

(** C7: for every declared type (every type object other than the bare
    special form [typing.Optional], which is no type), narrowing returns
    one of the six CLI primitives and does not raise; an unknown type
    narrows to [str], and the option of a settings field of such a type
    is synthesized with annotation [str]. *)
Theorem process_type_total (_T : pytype) :
  is_Optional _T = false ->
  (exists prim, process_type _T = Ok prim /\ In prim cli_primitives) /\
  (forall n, _T = TOther n -> process_type _T = Ok Tstr) /\
  (forall n item, _T = TOther n -> type_ (snd item) = _T ->
     isidentifier (fst item) = true -> iskeyword (fst item) = false ->
     strategy_parameter item = Ok (field_option item Tstr)).
Proof.
  intros Hopt. split; [|split].
  - rewrite (process_type_unfold _T Hopt).
    destruct (in_cli_primitives _T) eqn:E.
    + exists _T. split; [reflexivity | now apply in_cli_primitives_In].
    + exists Tstr. split; [reflexivity | simpl; right; right; left; reflexivity].
  - intros n ->. reflexivity.
  - intros n [fname meta] -> Hty Hid Hkw. simpl in *.
    unfold strategy_parameter, field_option. rewrite Hty. simpl.
    unfold Parameter_new. simpl in *. rewrite Hid, Hkw. reflexivity.
Qed.

(** ** Properties of the synthesized options *)

Lemma bind_Ok_inv {A B : Type} (m : result A) (k : A -> result B) (b : B) :
  bind m k = Ok b -> exists a, m = Ok a /\ k a = Ok b.
Proof.
  destruct m as [a|e]; simpl; intros H; [eauto | discriminate H].
Qed.

Lemma strategy_parameter_inv (item : string * ModelField) (prm : Param) :
  strategy_parameter item = Ok prm ->
  exists T, process_type (type_ (snd item)) = Ok T /\ prm = field_option item T.
Proof.
  destruct item as [fname meta]. unfold strategy_parameter. intros H.
  apply bind_Ok_inv in H as (T & HT & H). exists T. split; [exact HT|].
  unfold Parameter_new in H. simpl in H.
  destruct (iskeyword fname && true || negb (isidentifier fname)); [discriminate H|].
  inversion H. reflexivity.
Qed.

(** C9 (amended): the help text of the option generated for a settings
    field is the description of the field when there is one, and the
    text None, the formatting of the absent description, when there is
    none. *)
Theorem help_is_formatted_description (item : string * ModelField)
    (prm : Param) (o : OptionInfo) :
  strategy_parameter item = Ok prm ->
  default prm = DefaultOption o ->
  help o = match description (snd item) with Some d => d | None => "None" end.
Proof.
  intros H Hd. apply strategy_parameter_inv in H as (T & _ & ->).
  simpl in Hd. inversion Hd. reflexivity.
Qed.

(** ** Properties of the invocation handler *)

Lemma Config_kwargs_lists (s : string) (a : Args.t) (ns rs : list string) :
  Args.namespaces a = Some ns -> Args.resources a = Some rs ->
  exists cfg, Config_kwargs s a = Ok cfg.
Proof.
  intros Hn Hr. unfold Config_kwargs. rewrite Hn, Hr. simpl. eauto.
Qed.

Lemma Config_kwargs_Ok_lists (s : string) (a : Args.t) (cfg : Config.t) :
  Config_kwargs s a = Ok cfg ->
  exists ns rs, Args.namespaces a = Some ns /\ Args.resources a = Some rs.
Proof.
  unfold Config_kwargs. intros H.
  destruct (Args.namespaces a) as [ns|]; [|discriminate H].
  destruct (Args.resources a) as [rs|]; [|discriminate H].
  eauto.
Qed.

Lemma Config_kwargs_None (s : string) (a : Args.t) :
  Args.namespaces a = None \/ Args.resources a = None ->
  Config_kwargs s a = Raise TypeError.
Proof.
  unfold Config_kwargs. intros [H|H].
  - rewrite H. reflexivity.
  - rewrite H. destruct (Args.namespaces a); reflexivity.
Qed.

Lemma run_strategy_valid (cell : nat) (a : Args.t) (p : Process)
    (s : string) (cfg : Config.t) :
  load_str cell p = Ok s -> Config_kwargs s a = Ok cfg ->
  Config_validate cfg = true ->
  run_strategy cell a p = Runner_run (set_config cfg p).
Proof.
  intros Hs Hk Hv. unfold run_strategy. rewrite Hs, Hk, Hv. reflexivity.
Qed.

Lemma run_strategy_invalid (cell : nat) (a : Args.t) (p : Process)
    (s : string) (cfg : Config.t) :
  load_str cell p = Ok s -> Config_kwargs s a = Ok cfg ->
  Config_validate cfg = false ->
  run_strategy cell a p =
    (Ok tt, emit (EvLogException "Error occured while parsing arguments") p).
Proof.
  intros Hs Hk Hv. unfold run_strategy. rewrite Hs, Hk, Hv. reflexivity.
Qed.

(** C3: when the schema validation of the assembled configuration fails,
    the handler returns normally, the current configuration of the
    process is what it was before, the one event added is the logged
    failure, and no run of the Runner is recorded. *)
Theorem validation_failure_is_atomic (cell : nat) (a : Args.t) (p : Process)
    (s : string) (cfg : Config.t) :
  load_str cell p = Ok s -> Config_kwargs s a = Ok cfg ->
  Config_validate cfg = false ->
  let (r, p') := run_strategy cell a p in
  r = Ok tt /\
  current_config p' = current_config p /\
  events p' = events p ++ [EvLogException "Error occured while parsing arguments"] /\
  (forall c, In (EvRunnerRun c) (events p') -> In (EvRunnerRun c) (events p)) /\
  cells p' = cells p /\ registered_commands p' = registered_commands p.
Proof.
  intros Hs Hk Hv. rewrite (run_strategy_invalid cell a p s cfg Hs Hk Hv).
  simpl. repeat split; try reflexivity.
  intros c Hin. apply in_app_or in Hin as [Hin|Hin]; [exact Hin|].
  simpl in Hin. destruct Hin as [Hin|[]]. discriminate Hin.
Qed.

(** C4: with the all-clusters flag set the clusters field of the
    configuration is the wildcard whatever cluster list was given; with
    the flag unset it is the given cluster list, unchanged (and [None]
    when no list was given).  This holds for the keyword values handed to
    [Config] and for the configuration committed by a valid invocation. *)
Theorem clusters_wildcard_override (cell : nat) (a : Args.t) (p : Process)
    (s : string) (cfg : Config.t) :
  load_str cell p = Ok s -> Config_kwargs s a = Ok cfg ->
  (Args.all_clusters a = true -> Config.clusters cfg = SelStr "*") /\
  (Args.all_clusters a = false ->
     forall cs, Args.clusters a = Some cs -> Config.clusters cfg = SelList cs) /\
  (Args.all_clusters a = false ->
     Args.clusters a = None -> Config.clusters cfg = SelNone) /\
  (Config_validate cfg = true ->
     current_config (snd (run_strategy cell a p)) = Some cfg).
Proof.
  intros Hs Hk.
  assert (Hc : Config.clusters cfg =
               if Args.all_clusters a then SelStr "*"
               else match Args.clusters a with
                    | Some cs => SelList cs
                    | None => SelNone
                    end).
  { unfold Config_kwargs in Hk.
    apply bind_Ok_inv in Hk as (sn & _ & Hk).
    apply bind_Ok_inv in Hk as (sr & _ & Hk). inversion Hk. reflexivity. }
  split; [|split; [|split]].
  - intros Hall. now rewrite Hc, Hall.
  - intros Hall cs Hcs. now rewrite Hc, Hall, Hcs.
  - intros Hall Hcs. now rewrite Hc, Hall, Hcs.
  - intros Hv. rewrite (run_strategy_valid cell a p s cfg Hs Hk Hv). reflexivity.
Qed.

(** C5: a namespaces list that contains the wildcard token gives the
    wildcard as namespaces field, and likewise for resources; a list
    without the token is passed through unchanged. *)
Theorem wildcard_dominates_lists (cell : nat) (a : Args.t) (p : Process)
    (s : string) (cfg : Config.t) (ns rs : list string) :
  load_str cell p = Ok s -> Config_kwargs s a = Ok cfg ->
  Args.namespaces a = Some ns -> Args.resources a = Some rs ->
  (In "*" ns -> Config.namespaces cfg = SelStr "*") /\
  (~ In "*" ns -> Config.namespaces cfg = SelList ns) /\
  (In "*" rs -> Config.resources cfg = SelStr "*") /\
  (~ In "*" rs -> Config.resources cfg = SelList rs) /\
  (Config_validate cfg = true ->
     current_config (snd (run_strategy cell a p)) = Some cfg).
Proof.
  intros Hs Hk Hn Hr.
  assert (Hin : forall l, str_in "*" l = true <-> In "*" l).
  { intros l. unfold str_in. rewrite existsb_exists. split.
    - intros (x & Hx & Heq). apply String.eqb_eq in Heq. now subst x.
    - intros Hx. exists "*". split; [exact Hx | apply String.eqb_refl]. }
  assert (Hcfg :
    Config.namespaces cfg = (if str_in "*" ns then SelStr "*" else SelList ns) /\
    Config.resources cfg = (if str_in "*" rs then SelStr "*" else SelList rs)).
  { pose proof Hk as Hk'. unfold Config_kwargs in Hk'. rewrite Hn, Hr in Hk'.
    simpl in Hk'. inversion Hk'. split; reflexivity. }
  destruct Hcfg as [Hcn Hcr]. rewrite Hcn, Hcr.
  repeat split.
  - intros H. apply Hin in H. now rewrite H.
  - intros H. destruct (str_in "*" ns) eqn:E; [|reflexivity].
    apply Hin in E. contradiction.
  - intros H. apply Hin in H. now rewrite H.
  - intros H. destruct (str_in "*" rs) eqn:E; [|reflexivity].
    apply Hin in E. contradiction.
  - intros Hv. rewrite (run_strategy_valid cell a p s cfg Hs Hk Hv). reflexivity.
Qed.

(** C6: an invocation whose configuration validates leaves that
    configuration as the current configuration of the process and records
    one run of the Runner, started with that configuration in effect; the
    handler then ends as the Runner does.  For the default invocation of
    the strategy named simple, where every parameter holds the default
    written in its option, the committed configuration has strategy
    simple, the floors 10 and 100 and the formatter table. *)
Theorem success_commits_then_runs (cell : nat) (a : Args.t) (p : Process)
    (s : string) (cfg : Config.t) :
  load_str cell p = Ok s -> Config_kwargs s a = Ok cfg ->
  Config_validate cfg = true ->
  let (r, p') := run_strategy cell a p in
  (r = Runner_outcome (Some cfg) /\
   current_config p' = Some cfg /\
   events p' = events p ++ [EvRunnerRun (Some cfg)] /\
   cells p' = cells p /\ registered_commands p' = registered_commands p) /\
  (forall sargs,
     s = "simple" -> default_args sargs = Some a ->
     Config.strategy cfg = "simple" /\
     Config.cpu_min_value cfg = 10%Z /\
     Config.memory_min_value cfg = 100%Z /\
     Config.format cfg = "table") /\
  (declared_default "cpu_min_value" = Some (PyInt 10) /\
   declared_default "memory_min_value" = Some (PyInt 100) /\
   declared_default "format" = Some (PyStr "table")).
Proof.
  intros Hs Hk Hv. rewrite (run_strategy_valid cell a p s cfg Hs Hk Hv).
  split; [|split].
  - cbn. repeat split; reflexivity.
  - intros sargs -> Hd. vm_compute in Hd. inversion Hd; subst a. clear Hd.
    unfold Config_kwargs in Hk. cbn [Args.namespaces Args.resources] in Hk.
    apply bind_Ok_inv in Hk as (sn & _ & Hk).
    apply bind_Ok_inv in Hk as (sr & _ & Hk).
    inversion Hk. cbn. repeat split; reflexivity.
  - repeat split; reflexivity.
Qed.

(** C10: the handler is defined only on list values for namespaces and
    resources.  With either of them [None] the membership test raises
    [TypeError] while the keyword values are evaluated, so no
    configuration is constructed and the process is left as it was; with
    both of them lists the keyword values are evaluated without error,
    and the handler returns normally unless the Runner it starts
    raises. *)
Theorem run_strategy_requires_lists (cell : nat) (a : Args.t) (p : Process)
    (s : string) :
  load_str cell p = Ok s ->
  (Args.namespaces a = None \/ Args.resources a = None ->
     Config_kwargs s a = Raise TypeError /\
     run_strategy cell a p = (Raise TypeError, p)) /\
  (forall ns rs, Args.namespaces a = Some ns -> Args.resources a = Some rs ->
     exists cfg,
       Config_kwargs s a = Ok cfg /\
       fst (run_strategy cell a p)
       = if Config_validate cfg then Runner_outcome (Some cfg) else Ok tt) /\
  (fst (run_strategy cell a p) = Ok tt ->
     exists ns rs, Args.namespaces a = Some ns /\ Args.resources a = Some rs).
Proof.
  intros Hs. split; [|split].
  - intros Hnone. pose proof (Config_kwargs_None s a Hnone) as Hk.
    split; [exact Hk|]. unfold run_strategy. rewrite Hs, Hk. reflexivity.
  - intros ns rs Hn Hr.
    destruct (Config_kwargs_lists s a ns rs Hn Hr) as [cfg Hk].
    exists cfg. split; [exact Hk|].
    unfold run_strategy. rewrite Hs, Hk.
    destruct (Config_validate cfg); reflexivity.
  - unfold run_strategy. rewrite Hs.
    destruct (Config_kwargs s a) as [cfg|e] eqn:Hk.
    + intros _. exact (Config_kwargs_Ok_lists s a cfg Hk).
    + simpl. intros H. discriminate H.
Qed.

(** ** Properties of the command synthesis *)

Lemma mapM_Forall2 {A B : Type} (f : A -> result B) (l : list A) (r : list B) :
  mapM f l = Ok r -> Forall2 (fun x y => f x = Ok y) l r.
Proof.
  revert r. induction l as [|x xs IH]; simpl; intros r H.
  - inversion H. constructor.
  - apply bind_Ok_inv in H as (y & Hy & H).
    apply bind_Ok_inv in H as (ys & Hys & H).
    inversion H. constructor; [exact Hy | now apply IH].
Qed.

Lemma str_in_cons_false (x y : string) (l : list string) :
  str_in x (y :: l) = false -> x <> y /\ str_in x l = false.
Proof.
  unfold str_in. simpl. intros H. apply orb_false_iff in H as [H1 H2].
  split; [|exact H2]. now apply String.eqb_neq.
Qed.

Lemma validate_parameters_NoDup (parameters : list Param) :
  forall top_kind seen_default params,
    validate_parameters top_kind seen_default params parameters = Ok tt ->
    NoDup (map name parameters) /\
    Forall (fun n => str_in n params = false) (map name parameters).
Proof.
  induction parameters as [|param rest IH]; intros top sd seen H.
  - split; constructor.
  - simpl in H.
    destruct (Nat.ltb (kind_rank (kind param)) top); [discriminate H|].
    match type of H with
    | (if ?c then _ else _) = _ => destruct c; [discriminate H|]
    end.
    destruct (str_in (name param) seen) eqn:Hseen; [discriminate H|].
    apply IH in H as [Hnd Hall]. simpl. split.
    + apply NoDup_cons. split; [|exact Hnd].
      intros Hin. rewrite Forall_forall in Hall.
      apply Hall, str_in_cons_false in Hin as [Hne _]. now apply Hne.
    + constructor; [exact Hseen|].
      eapply Forall_impl; [exact Hall|].
      intros n Hn. simpl in Hn. apply str_in_cons_false in Hn. exact (proj2 Hn).
Qed.

Lemma load_str_alloc (c : nat) (v : option cellval) (p : Process) :
  c < length (cells p) ->
  load_str c (set_cells (fun cs => cs ++ [v]) p) = load_str c p.
Proof.
  intros Hc. unfold load_str. simpl. now rewrite lookup_app_l.
Qed.

Lemma load_strategy_alloc (c : nat) (v : option cellval) (p : Process) :
  c < length (cells p) ->
  load_strategy c (set_cells (fun cs => cs ++ [v]) p) = load_strategy c p.
Proof.
  intros Hc. unfold load_strategy. simpl. now rewrite lookup_app_l.
Qed.

Lemma removelast_signature : removelast run_strategy_signature = fixed_parameters.
Proof.
  unfold run_strategy_signature, fixed_parameters.
  rewrite app_comm_cons. apply removelast_last.
Qed.

Lemma strategy_wrapper_spec (cn ct : nat) (d n : string) (ty : StrategyType)
    (p p2 : Process) :
  cn < length (cells p) -> ct < length (cells p) ->
  load_str cn p = Ok n -> load_strategy ct p = Ok ty ->
  strategy_wrapper cn ct d p = Ok p2 ->
  exists added,
    p2 = app_command "Strategies"
           (mkFunc n (fixed_parameters ++ added) (CodeRunStrategy (length (cells p))))
           (set_cells (fun cs => cs ++ [Some (CellStr d)]) p) /\
    mapM strategy_parameter (settings_fields ty) = Ok added /\
    validate_parameters 0 false [] (fixed_parameters ++ added) = Ok tt.
Proof.
  intros Hcn Hct Hn Hty H. unfold strategy_wrapper, alloc in H.
  rewrite (load_str_alloc cn _ p Hcn), Hn in H.
  cbn [bind fn_signature fn_name fn_code] in H.
  rewrite (load_strategy_alloc ct _ p Hct), Hty in H.
  cbn [bind] in H.
  apply bind_Ok_inv in H as (added & Hadd & H).
  apply bind_Ok_inv in H as (replaced & Hrep & H).
  unfold Signature_replace in Hrep.
  apply bind_Ok_inv in Hrep as ([] & Hval & Hrep).
  rewrite removelast_signature in Hval, Hrep.
  inversion Hrep; subst replaced. inversion H; subst p2.
  exists added. repeat split; assumption.
Qed.

Lemma load_commands_loop_spec (items : list (string * StrategyType)) :
  forall (cn ct : nat) (p p' : Process),
    cn < length (cells p) -> ct < length (cells p) -> cn <> ct ->
    load_commands_loop cn ct items p = Ok p' ->
    exists cmds,
      registered_commands p' = registered_commands p ++ cmds /\
      current_config p' = current_config p /\
      events p' = events p /\
      length (cells p) <= length (cells p') /\
      (forall c, c < length (cells p) -> c <> cn -> c <> ct ->
         cells p' !! c = cells p !! c) /\
      Forall2 (command_of p') items cmds.
Proof.
  induction items as [|[n ty] rest IH]; intros cn ct p p' Hcn Hct Hne H.
  - simpl in H. inversion H; subst p'. exists []. rewrite app_nil_r.
    repeat split; auto; constructor.
  - cbn [load_commands_loop] in H.
    set (p1 := store ct (CellStrategy ty) (store cn (CellStr n) p)) in *.
    assert (Hlen1 : length (cells p1) = length (cells p)).
    { unfold p1. simpl. now rewrite !length_insert. }
    assert (Hn1 : load_str cn p1 = Ok n).
    { unfold load_str, p1. simpl.
      rewrite list_lookup_insert_ne by (intros E; apply Hne; now symmetry).
      now rewrite list_lookup_insert_eq. }
    assert (Hty1 : load_strategy ct p1 = Ok ty).
    { unfold load_strategy, p1. simpl.
      rewrite list_lookup_insert_eq; [reflexivity|].
      now rewrite length_insert. }
    rewrite Hn1 in H. cbn [bind] in H.
    apply bind_Ok_inv in H as (p2 & Hw & H).
    apply (strategy_wrapper_spec cn ct n n ty p1 p2) in Hw
      as (added & Hp2 & Hadd & Hval); try assumption; try lia.
    assert (Hcells2 : cells p2 = cells p1 ++ [Some (CellStr n)]).
    { subst p2. reflexivity. }
    assert (Hlen2 : length (cells p2) = S (length (cells p))).
    { rewrite Hcells2, length_app, Hlen1. simpl. lia. }
    apply IH in H as (cmds & Hreg & Hcur & Hev & Hlen & Hkeep & Hall);
      try lia.
    exists (mkCommand (mkFunc n (fixed_parameters ++ added)
                              (CodeRunStrategy (length (cells p1)))) "Strategies"
            :: cmds).
    split; [|split; [|split; [|split; [|split]]]].
    + rewrite Hreg. subst p2. cbn [app_command registered_commands].
      now rewrite <- app_assoc.
    + rewrite Hcur. subst p2. reflexivity.
    + rewrite Hev. subst p2. reflexivity.
    + lia.
    + intros c Hc Hc1 Hc2. rewrite Hkeep by lia.
      rewrite Hcells2, lookup_app_l by lia.
      unfold p1. simpl.
      rewrite list_lookup_insert_ne by (intros E; apply Hc2; now symmetry).
      now rewrite list_lookup_insert_ne by (intros E; apply Hc1; now symmetry).
    + constructor; [|exact Hall].
      exists (length (cells p1)), added. cbn [fst snd].
      split; [reflexivity|]. split; [|split; assumption].
      unfold load_str. rewrite Hkeep by lia.
      rewrite Hcells2. now rewrite list_lookup_middle.
Qed.

Lemma load_commands_spec (registry : list (string * StrategyType))
    (p p' : Process) :
  load_commands registry p = Ok p' ->
  exists cmds,
    registered_commands p' = registered_commands p ++ cmds /\
    current_config p' = current_config p /\
    events p' = events p /\
    Forall2 (command_of p') registry cmds.
Proof.
  unfold load_commands, alloc. simpl. intros H.
  apply load_commands_loop_spec in H
    as (cmds & Hreg & Hcur & Hev & _ & _ & Hall);
    simpl; rewrite ?length_app; simpl; try lia.
  exists cmds. repeat split; assumption.
Qed.

Lemma load_commands_lookup (registry : list (string * StrategyType))
    (p p' : Process) (i : nat) (item : string * StrategyType) :
  load_commands registry p = Ok p' ->
  registry !! i = Some item ->
  exists cmd,
    registered_commands p' !! (length (registered_commands p) + i) = Some cmd /\
    command_of p' item cmd.
Proof.
  intros H Hi. apply load_commands_spec in H as (cmds & Hreg & _ & _ & Hall).
  destruct (Forall2_lookup_l _ _ _ _ _ Hall Hi) as (cmd & Hcmd & Hof).
  exists cmd. split; [|exact Hof].
  rewrite Hreg, lookup_app_r by lia.
  replace (length (registered_commands p) + i - length (registered_commands p))
    with i by lia.
  exact Hcmd.
Qed.

(** C1: every command generated by [load_commands] is bound to the name
    of its own strategy.  For the strategy at any position of the
    registry, the command registered at that position carries that name,
    and calling its handler in the process left by [load_commands]
    assembles a configuration whose strategy field is that name,
    whichever strategies were iterated after it. *)
Theorem handler_closes_over_own_name (registry : list (string * StrategyType))
    (p p' : Process) :
  load_commands registry p = Ok p' ->
  forall i item, registry !! i = Some item ->
  exists cmd,
    registered_commands p' !! (length (registered_commands p) + i) = Some cmd /\
    fn_name (callback cmd) = fst item /\
    forall a ns rs,
      Args.namespaces a = Some ns -> Args.resources a = Some rs ->
      exists cfg,
        Config_kwargs (fst item) a = Ok cfg /\
        Config.strategy cfg = fst item /\
        call (callback cmd) a p' =
          if Config_validate cfg
          then Runner_run (set_config cfg p')
          else (Ok tt, emit (EvLogException "Error occured while parsing arguments") p').
Proof.
  intros H i item Hi.
  destruct (load_commands_lookup registry p p' i item H Hi)
    as (cmd & Hcmd & cell & added & -> & Hcell & _ & _).
  exists (mkCommand (mkFunc (fst item) (fixed_parameters ++ added)
                            (CodeRunStrategy cell)) "Strategies").
  split; [exact Hcmd|]. split; [reflexivity|].
  intros a ns rs Hn Hr.
  destruct (Config_kwargs_lists (fst item) a ns rs Hn Hr) as [cfg Hk].
  exists cfg. split; [exact Hk|]. split.
  - unfold Config_kwargs in Hk. rewrite Hn, Hr in Hk. simpl in Hk.
    inversion Hk. reflexivity.
  - unfold call, run_strategy. cbn [fn_code callback]. rewrite Hcell, Hk.
    destruct (Config_validate cfg); reflexivity.
Qed.

Lemma options_of_signature (added : list Param) :
  Forall (fun prm => is_option prm = true) added ->
  List.filter is_option (fixed_parameters ++ added) = global_options ++ added.
Proof.
  intros Hall. rewrite List.filter_app. f_equal.
  induction Hall as [|prm rest Hprm _ IH]; simpl; [reflexivity|].
  now rewrite Hprm, IH.
Qed.

(** C8: for every strategy the parameters of the generated command are
    the fixed parameters of [run_strategy] followed by one option per
    field of the settings schema of that strategy, in schema order; its
    options are the global options followed by those, each named by the
    field name and flagged by the field name after two dashes, verbatim;
    no parameter name occurs twice, and nothing of the list depends on
    another strategy. *)
Theorem synthesized_option_set (registry : list (string * StrategyType))
    (p p' : Process) :
  load_commands registry p = Ok p' ->
  forall i item, registry !! i = Some item ->
  exists cmd added,
    registered_commands p' !! (length (registered_commands p) + i) = Some cmd /\
    fn_name (callback cmd) = fst item /\
    fn_signature (callback cmd) = fixed_parameters ++ added /\
    List.filter is_option (fn_signature (callback cmd)) = global_options ++ added /\
    Forall2 (fun field prm =>
               name prm = fst field /\
               (exists o, default prm = DefaultOption o /\
                          param_decls o = [String.append "--" (fst field)]) /\
               exists T, process_type (type_ (snd field)) = Ok T /\
                         prm = field_option field T)
            (settings_fields (snd item)) added /\
    NoDup (map name (fn_signature (callback cmd))).
Proof.
  intros H i item Hi.
  destruct (load_commands_lookup registry p p' i item H Hi)
    as (cmd & Hcmd & cell & added & -> & _ & Hadd & Hval).
  assert (Hfields :
    Forall2 (fun field prm =>
               exists T, process_type (type_ (snd field)) = Ok T /\
                         prm = field_option field T)
            (settings_fields (snd item)) added).
  { apply mapM_Forall2 in Hadd.
    eapply Forall2_impl; [exact Hadd|].
    intros field prm Hprm. now apply strategy_parameter_inv. }
  eexists _, added. split; [exact Hcmd|].
  cbn [callback fn_name fn_signature].
  split; [reflexivity|]. split; [reflexivity|]. split; [|split].
  - apply options_of_signature.
    clear -Hfields. induction Hfields as [|f prm fs ps (T & _ & ->) _ IH];
      constructor; [reflexivity | exact IH].
  - eapply Forall2_impl; [exact Hfields|].
    intros field prm (T & HT & ->). split; [reflexivity|]. split.
    + eexists. split; reflexivity.
    + exists T. split; [exact HT | reflexivity].
  - apply validate_parameters_NoDup in Hval. exact (proj1 Hval).
Qed.

(** ** The synthesis succeeds on well-formed registries *)

Lemma str_in_In (x : string) (l : list string) : str_in x l = true <-> In x l.
Proof.
  unfold str_in. rewrite existsb_exists. split.
  - intros (y & Hy & Heq). apply String.eqb_eq in Heq. now subst y.
  - intros Hx. exists x. split; [exact Hx | apply String.eqb_refl].
Qed.

Lemma str_in_not_In (x : string) (l : list string) : ~ In x l -> str_in x l = false.
Proof.
  intros H. destruct (str_in x l) eqn:E; [|reflexivity].
  apply str_in_In in E. contradiction.
Qed.

Lemma strategy_parameter_well_formed (f : string * ModelField) :
  isidentifier (fst f) = true -> iskeyword (fst f) = false ->
  is_Optional (type_ (snd f)) = false ->
  strategy_parameter f = Ok (field_option f (narrowed (type_ (snd f)))).
Proof.
  destruct f as [fname meta]. cbn [fst snd]. intros Hid Hkw Hopt.
  unfold strategy_parameter. rewrite (process_type_unfold _ Hopt).
  unfold narrowed, field_option, Parameter_new. cbn [fst snd].
  destruct (in_cli_primitives (type_ meta)); cbn [bind];
    rewrite Hid, Hkw; reflexivity.
Qed.

Lemma mapM_map {A B : Type} (f : A -> result B) (g : A -> B) (l : list A) :
  Forall (fun x => f x = Ok (g x)) l -> mapM f l = Ok (map g l).
Proof.
  induction 1 as [|x xs Hx _ IH]; [reflexivity|].
  cbn [mapM]. rewrite Hx. cbn [bind]. rewrite IH. reflexivity.
Qed.

Lemma validate_parameters_keyword_only (parameters : list Param) :
  forall top_kind seen_default params,
    Forall (fun prm => kind prm = KEYWORD_ONLY) parameters ->
    top_kind <= 3 ->
    NoDup (map name parameters) ->
    Forall (fun n => ~ In n params) (map name parameters) ->
    validate_parameters top_kind seen_default params parameters = Ok tt.
Proof.
  induction parameters as [|prm rest IH]; intros top sd seen Hk Htop Hnd Hseen;
    [reflexivity|].
  inversion Hk as [|? ? Hkind Hrest]; subst.
  cbn [map] in Hnd, Hseen. apply NoDup_cons in Hnd as [Hnotin Hnd].
  inversion Hseen as [|? ? Hhead Htail]; subst.
  cbn [validate_parameters]. rewrite Hkind. cbn [kind_rank].
  destruct (Nat.ltb 3 top) eqn:E1; [apply Nat.ltb_lt in E1; lia|].
  replace (Nat.leb 3 (kind_rank POSITIONAL_OR_KEYWORD)) with false by reflexivity.
  cbn [andb]. rewrite (str_in_not_In _ _ Hhead).
  apply IH; try assumption.
  - destruct (Nat.ltb top 3); lia.
  - rewrite Forall_forall in Htail. apply Forall_forall. intros n Hn [Heq|Hin].
    + subst n. apply Hnotin. exact Hn.
    + exact (Htail n Hn Hin).
Qed.

Lemma validate_parameters_app (l1 : list Param) :
  forall top_kind seen_default params (l2 : list Param),
    top_kind <= 3 ->
    Forall (fun prm => kind_rank (kind prm) <= 3) l1 ->
    validate_parameters top_kind seen_default params l1 = Ok tt ->
    exists top_kind' seen_default',
      top_kind' <= 3 /\
      validate_parameters top_kind seen_default params (l1 ++ l2)
      = validate_parameters top_kind' seen_default'
          (rev (map name l1) ++ params) l2.
Proof.
  induction l1 as [|prm rest IH]; intros top sd seen l2 Htop Hk H.
  - exists top, sd. split; [exact Htop | reflexivity].
  - inversion Hk as [|? ? Hkind Hrest]; subst.
    cbn [validate_parameters app] in H |- *.
    destruct (Nat.ltb (kind_rank (kind prm)) top); [discriminate H|].
    match type of H with
    | (if ?c then _ else _) = _ => destruct c; [discriminate H|]
    end.
    destruct (str_in (name prm) seen); [discriminate H|].
    eapply IH in H as (top' & sd' & Htop' & Heq); [|
      destruct (Nat.ltb top (kind_rank (kind prm))); lia | exact Hrest].
    exists top', sd'. split; [exact Htop'|].
    rewrite Heq. cbn [map rev]. now rewrite <- app_assoc.
Qed.

Lemma fixed_parameters_valid :
  validate_parameters 0 false [] fixed_parameters = Ok tt /\
  Forall (fun prm => kind_rank (kind prm) <= 3) fixed_parameters.
Proof.
  split; [vm_compute; reflexivity|].
  apply Forall_forall. intros prm Hin. apply list_elem_of_In in Hin.
  assert (Hb : forallb (fun prm => Nat.leb (kind_rank (kind prm)) 3)
                 fixed_parameters = true) by (vm_compute; reflexivity).
  rewrite forallb_forall in Hb. apply Nat.leb_le. now apply Hb.
Qed.

Lemma signature_well_formed (ty : StrategyType) :
  well_formed_settings ty ->
  exists added,
    mapM strategy_parameter (settings_fields ty) = Ok added /\
    validate_parameters 0 false [] (fixed_parameters ++ added) = Ok tt.
Proof.
  intros [Hall Hnd].
  exists (map (fun f => field_option f (narrowed (type_ (snd f)))) (settings_fields ty)).
  split.
  - apply mapM_map. eapply Forall_impl; [exact Hall|].
    intros f (Hid & Hkw & Hopt & _). now apply strategy_parameter_well_formed.
  - destruct fixed_parameters_valid as [Hfix Hkinds].
    destruct (validate_parameters_app fixed_parameters 0 false [] 
                (map (fun f => field_option f (narrowed (type_ (snd f))))
                     (settings_fields ty))
                ltac:(lia) Hkinds Hfix) as (top' & sd' & Htop' & ->).
    assert (Hnames :
      map name (map (fun f => field_option f (narrowed (type_ (snd f))))
                    (settings_fields ty)) = map fst (settings_fields ty)).
    { rewrite List.map_map. reflexivity. }
    apply validate_parameters_keyword_only; try assumption.
    + apply Forall_forall. intros prm Hin.
      apply list_elem_of_In, in_map_iff in Hin as (f & <- & _). reflexivity.
    + rewrite Hnames. exact Hnd.
    + rewrite Hnames. apply Forall_forall. intros n Hn.
      apply list_elem_of_In, in_map_iff in Hn as (f & <- & Hf).
      rewrite Forall_forall in Hall.
      destruct (Hall f (proj2 (list_elem_of_In _ _) Hf)) as (_ & _ & _ & Hfresh).
      rewrite app_nil_r. intros Hin. apply Hfresh. now apply in_rev.
Qed.

Lemma strategy_wrapper_succeeds (cn ct : nat) (d n : string) (ty : StrategyType)
    (p : Process) :
  cn < length (cells p) -> ct < length (cells p) ->
  load_str cn p = Ok n -> load_strategy ct p = Ok ty ->
  well_formed_settings ty ->
  exists p2, strategy_wrapper cn ct d p = Ok p2.
Proof.
  intros Hcn Hct Hn Hty Hwf.
  destruct (signature_well_formed ty Hwf) as (added & Hadd & Hval).
  unfold strategy_wrapper, alloc.
  rewrite (load_str_alloc cn _ p Hcn), Hn.
  cbn [bind fn_signature fn_name fn_code].
  rewrite (load_strategy_alloc ct _ p Hct), Hty. cbn [bind].
  rewrite Hadd. cbn [bind]. unfold Signature_replace.
  rewrite removelast_signature.
  change (kind_rank POSITIONAL_ONLY) with 0. rewrite Hval. cbn [bind]. eauto.
Qed.

Lemma load_commands_loop_succeeds (items : list (string * StrategyType)) :
  forall (cn ct : nat) (p : Process),
    cn < length (cells p) -> ct < length (cells p) -> cn <> ct ->
    Forall (fun item => well_formed_settings (snd item)) items ->
    exists p', load_commands_loop cn ct items p = Ok p'.
Proof.
  induction items as [|[n ty] rest IH]; intros cn ct p Hcn Hct Hne Hwf.
  - eexists. reflexivity.
  - inversion Hwf as [|? ? Hhead Htail]; subst. cbn [snd] in Hhead.
    cbn [load_commands_loop].
    set (p1 := store ct (CellStrategy ty) (store cn (CellStr n) p)).
    assert (Hlen1 : length (cells p1) = length (cells p)).
    { unfold p1. simpl. now rewrite !length_insert. }
    assert (Hn1 : load_str cn p1 = Ok n).
    { unfold load_str, p1. simpl.
      rewrite list_lookup_insert_ne by (intros E; apply Hne; now symmetry).
      now rewrite list_lookup_insert_eq. }
    assert (Hty1 : load_strategy ct p1 = Ok ty).
    { unfold load_strategy, p1. simpl.
      rewrite list_lookup_insert_eq; [reflexivity|].
      now rewrite length_insert. }
    rewrite Hn1. cbn [bind].
    destruct (strategy_wrapper_succeeds cn ct n n ty p1) as [p2 Hp2];
      try assumption; try lia.
    rewrite Hp2. cbn [bind].
    destruct (strategy_wrapper_spec cn ct n n ty p1 p2) as (added & -> & _ & _);
      try assumption; try lia.
    apply IH; try assumption;
      cbn [app_command set_cells cells]; rewrite length_app, Hlen1;
      cbn [length]; lia.
Qed.

(** On a registry whose settings schemas are well formed [load_commands]
    returns: it registers a command for every strategy. *)
Lemma load_commands_succeeds (registry : list (string * StrategyType))
    (p : Process) :
  Forall (fun item => well_formed_settings (snd item)) registry ->
  exists p', load_commands registry p = Ok p'.
Proof.
  intros Hwf. unfold load_commands, alloc.
  apply load_commands_loop_succeeds; try assumption;
    simpl; rewrite ?length_app; simpl; lia.
Qed.

(** ** Further properties of the narrower, the synthesis and the handler *)

(** X1: the type objects [__process_type] returns unchanged are the six CLI
    primitives and no others. *)
Theorem process_type_fixed_points (_T : pytype) :
  process_type _T = Ok _T <-> In _T cli_primitives.
Proof.
  split.
  - destruct _T; simpl; intros H; try discriminate H;
      repeat first [left; reflexivity | right].
  - intros H. apply in_cli_primitives_In_inv in H.
    destruct _T; simpl in H; try discriminate H; reflexivity.
Qed.

(** X2: narrowing an answer of [__process_type] again gives the same answer. *)
Theorem process_type_idempotent (_T prim : pytype) :
  process_type _T = Ok prim -> process_type prim = Ok prim.
Proof.
  destruct (is_Optional _T) eqn:Hopt.
  - destruct _T; simpl in Hopt; try discriminate Hopt.
    simpl. intros H. discriminate H.
  - rewrite (process_type_unfold _T Hopt).
    destruct (in_cli_primitives _T) eqn:E; intros H; inversion H; subst prim.
    + destruct _T; simpl in E; try discriminate E; reflexivity.
    + reflexivity.
Qed.

(** X3: [load_commands] appends one command per registry item, in registry
    order and named after the strategy, all in the help panel Strategies;
    the commands registered before, the current configuration and the
    events are left as they were. *)
Theorem load_commands_registers_in_order (registry : list (string * StrategyType))
    (p p' : Process) :
  load_commands registry p = Ok p' ->
  exists cmds,
    registered_commands p' = registered_commands p ++ cmds /\
    map (fun cmd => fn_name (callback cmd)) cmds = map fst registry /\
    Forall (fun cmd => command_panel cmd = "Strategies") cmds /\
    current_config p' = current_config p /\
    events p' = events p.
Proof.
  intros H. apply load_commands_spec in H as (cmds & Hreg & Hcur & Hev & Hall).
  exists cmds. split; [exact Hreg|]. split; [|split; [|split; assumption]].
  - clear Hreg. induction Hall as [|item cmd items cs Hof _ IH]; [reflexivity|].
    destruct Hof as (cell & added & -> & _). cbn [map callback fn_name].
    now rewrite IH.
  - clear Hreg. induction Hall as [|item cmd items cs Hof _ IH]; constructor.
    + destruct Hof as (cell & added & -> & _). reflexivity.
    + exact IH.
Qed.

Lemma process_type_Ok_not_Optional (_T a : pytype) :
  process_type _T = Ok a -> is_Optional _T = false.
Proof.
  destruct _T; simpl; intros H; try reflexivity. discriminate H.
Qed.

Lemma strategy_parameter_Ok_field (f : string * ModelField) (prm : Param) :
  strategy_parameter f = Ok prm ->
  isidentifier (fst f) = true /\ iskeyword (fst f) = false /\
  is_Optional (type_ (snd f)) = false /\ name prm = fst f.
Proof.
  destruct f as [fname meta]. cbn [fst snd]. unfold strategy_parameter. intros H.
  apply bind_Ok_inv in H as (T & HT & H).
  apply process_type_Ok_not_Optional in HT.
  unfold Parameter_new in H. cbn [kind_rank Nat.eqb negb] in H.
  destruct (iskeyword fname); destruct (isidentifier fname);
    cbn [andb orb negb] in H; try discriminate H.
  inversion H. repeat split; try reflexivity. exact HT.
Qed.

Lemma signature_Ok_well_formed (ty : StrategyType) (added : list Param) :
  mapM strategy_parameter (settings_fields ty) = Ok added ->
  validate_parameters 0 false [] (fixed_parameters ++ added) = Ok tt ->
  well_formed_settings ty.
Proof.
  intros Hadd Hval. apply mapM_Forall2 in Hadd.
  apply validate_parameters_NoDup in Hval as [Hnd _].
  rewrite List.map_app in Hnd. apply NoDup_app in Hnd as (_ & Hdisj & Hnd).
  assert (Hnames : map name added = map fst (settings_fields ty)).
  { clear -Hadd. induction Hadd as [|f prm fs ps Hf _ IH]; [reflexivity|].
    apply strategy_parameter_Ok_field in Hf as (_ & _ & _ & Hn).
    cbn [map]. now rewrite Hn, IH. }
  rewrite Hnames in Hnd, Hdisj. split; [|exact Hnd].
  apply Forall_forall. intros f Hf.
  pose proof Hf as Hlook. apply list_elem_of_lookup in Hlook as [i Hi].
  destruct (Forall2_lookup_l _ _ _ _ _ Hadd Hi) as (prm & _ & Hprm).
  apply strategy_parameter_Ok_field in Hprm as (Hid & Hkw & Hopt & _).
  repeat split; try assumption.
  intros Hfixed. apply (Hdisj (fst f)).
  - now apply list_elem_of_In.
  - apply list_elem_of_In, in_map_iff. exists f. split; [reflexivity|].
    now apply list_elem_of_In.
Qed.

(** X4: [load_commands] returns exactly on the registries whose settings
    schemas are all well formed: a field name that is repeated, that is
    the name of a fixed parameter of [run_strategy], that is a keyword or
    no identifier, or a field typed by the bare special form, makes the
    synthesis raise instead of registering anything. *)
Theorem load_commands_returns_iff_well_formed
    (registry : list (string * StrategyType)) (p : Process) :
  (exists p', load_commands registry p = Ok p') <->
  Forall (fun item => well_formed_settings (snd item)) registry.
Proof.
  split.
  - intros [p' H]. apply load_commands_spec in H as (cmds & _ & _ & _ & Hall).
    induction Hall as [|item cmd items cs Hof _ IH]; constructor; [|exact IH].
    destruct Hof as (cell & added & _ & _ & Hadd & Hval).
    exact (signature_Ok_well_formed (snd item) added Hadd Hval).
  - apply load_commands_succeeds.
Qed.

Lemma load_commands_loop_last (items : list (string * StrategyType)) :
  forall (cn ct : nat) (p p' : Process) (n : string) (ty : StrategyType),
    cn < length (cells p) -> ct < length (cells p) -> cn <> ct ->
    load_commands_loop cn ct items p = Ok p' ->
    last items = Some (n, ty) ->
    load_str cn p' = Ok n /\ load_strategy ct p' = Ok ty.
Proof.
  induction items as [|[n0 ty0] rest IH]; intros cn ct p p' n ty Hcn Hct Hne H Hlast.
  - discriminate Hlast.
  - cbn [load_commands_loop] in H.
    set (p1 := store ct (CellStrategy ty0) (store cn (CellStr n0) p)) in *.
    assert (Hlen1 : length (cells p1) = length (cells p)).
    { unfold p1. simpl. now rewrite !length_insert. }
    assert (Hn1 : load_str cn p1 = Ok n0).
    { unfold load_str, p1. simpl.
      rewrite list_lookup_insert_ne by (intros E; apply Hne; now symmetry).
      now rewrite list_lookup_insert_eq. }
    assert (Hty1 : load_strategy ct p1 = Ok ty0).
    { unfold load_strategy, p1. simpl.
      rewrite list_lookup_insert_eq; [reflexivity|].
      now rewrite length_insert. }
    rewrite Hn1 in H. cbn [bind] in H.
    apply bind_Ok_inv in H as (p2 & Hw & H).
    apply (strategy_wrapper_spec cn ct n0 n0 ty0 p1 p2) in Hw
      as (added & Hp2 & _ & _); try assumption; try lia.
    assert (Hcells2 : cells p2 = cells p1 ++ [Some (CellStr n0)]).
    { subst p2. reflexivity. }
    destruct rest as [|item2 rest'].
    + cbn [load_commands_loop] in H. inversion H; subst p'.
      cbn [last] in Hlast. inversion Hlast; subst n0 ty0.
      unfold load_str, load_strategy. rewrite Hcells2.
      rewrite !lookup_app_l by lia.
      unfold load_str in Hn1. unfold load_strategy in Hty1. now split.
    + apply (IH cn ct p2 p' n ty); try assumption.
      * rewrite Hcells2, length_app. lia.
      * rewrite Hcells2, length_app. lia.
Qed.

(** X5: after the loop of [load_commands] the loop variables [strategy_name]
    and [strategy_type] hold the last item of the registry: a handler that
    read [strategy_name] instead of its own [_strategy_name] would see the
    last name, which is what the wrapper is there to avoid. *)
Theorem loop_variable_holds_last_strategy
    (registry : list (string * StrategyType)) (p p' : Process)
    (n : string) (ty : StrategyType) :
  load_commands registry p = Ok p' ->
  last registry = Some (n, ty) ->
  load_str (length (cells p)) p' = Ok n /\
  load_strategy (S (length (cells p))) p' = Ok ty.
Proof.
  unfold load_commands, alloc. cbn [set_cells cells]. intros H Hlast.
  replace (length (cells p ++ [None])) with (S (length (cells p))) in H
    by (rewrite length_app; simpl; lia).
  apply (load_commands_loop_last registry _ _ _ p' n ty) in H; try assumption;
    cbn [cells set_cells]; rewrite ?length_app; cbn [length]; lia.
Qed.

(** X6: what the handler never does.  A run of the Runner it records was
    started with a configuration that passed validation and is the
    current one.  A call that raises either leaves the process as it was
    (the exception came before the validation) or raises what the Runner
    raised, with the validated configuration committed and the run
    recorded. *)
Theorem runner_runs_only_on_validated_config (cell : nat) (a : Args.t)
    (p : Process) :
  (forall c,
     In (EvRunnerRun c) (events (snd (run_strategy cell a p))) ->
     In (EvRunnerRun c) (events p) \/
     exists cfg,
       c = Some cfg /\ Config_validate cfg = true /\
       current_config (snd (run_strategy cell a p)) = Some cfg) /\
  (forall e,
     fst (run_strategy cell a p) = Raise e ->
     snd (run_strategy cell a p) = p \/
     exists cfg,
       Config_validate cfg = true /\
       Runner_outcome (Some cfg) = Raise e /\
       snd (run_strategy cell a p)
       = emit (EvRunnerRun (Some cfg)) (set_config cfg p)).
Proof.
  unfold run_strategy.
  destruct (load_str cell p) as [s|e0];
    [|cbn [fst snd]; split; [intros c H; now left | intros e _; now left]].
  destruct (Config_kwargs s a) as [cfg|e0];
    [|cbn [fst snd]; split; [intros c H; now left | intros e _; now left]].
  destruct (Config_validate cfg) eqn:Hv; cbn [fst snd Runner_run]; split.
  - intros c H. cbn [emit set_config events current_config] in H.
    apply in_app_or in H as [H|H]; [now left|].
    destruct H as [H|[]]. inversion H. right. exists cfg. repeat split.
    exact Hv.
  - intros e He. right. exists cfg. repeat split; assumption.
  - intros c H. cbn [emit events] in H.
    apply in_app_or in H as [H|H]; [now left|].
    destruct H as [H|[]]. discriminate H.
  - intros e He. discriminate He.
Qed.

(** X7: every global option other than the three selectors reaches the
    configuration with the value it was bound to, under its own name, and
    the strategy keyword values reach it as [other_args], unchanged: this
    holds for whatever configuration a call of the handler commits in a
    process that had none. *)
Theorem committed_config_passes_options_through (cell : nat) (a : Args.t)
    (p : Process) (cfg : Config.t) :
  current_config p = None ->
  current_config (snd (run_strategy cell a p)) = Some cfg ->
  Config.kubeconfig cfg = Args.kubeconfig a /\
  Config.selector cfg = Args.selector a /\
  Config.prometheus_url cfg = Args.prometheus_url a /\
  Config.prometheus_auth_header cfg = Args.prometheus_auth_header a /\
  Config.prometheus_other_headers cfg = Args.prometheus_other_headers a /\
  Config.prometheus_ssl_enabled cfg = Args.prometheus_ssl_enabled a /\
  Config.prometheus_cluster_label cfg = Args.prometheus_cluster_label a /\
  Config.prometheus_label cfg = Args.prometheus_label a /\
  Config.eks_managed_prom cfg = Args.eks_managed_prom a /\
  Config.eks_managed_prom_profile_name cfg = Args.eks_managed_prom_profile_name a /\
  Config.eks_access_key cfg = Args.eks_access_key a /\
  Config.eks_secret_key cfg = Args.eks_secret_key a /\
  Config.eks_service_name cfg = Args.eks_service_name a /\
  Config.eks_managed_prom_region cfg = Args.eks_managed_prom_region a /\
  Config.coralogix_token cfg = Args.coralogix_token a /\
  Config.openshift cfg = Args.openshift a /\
  Config.cpu_min_value cfg = Args.cpu_min_value a /\
  Config.memory_min_value cfg = Args.memory_min_value a /\
  Config.max_workers cfg = Args.max_workers a /\
  Config.format cfg = Args.format a /\
  Config.show_cluster_name cfg = Args.show_cluster_name a /\
  Config.verbose cfg = Args.verbose a /\
  Config.quiet cfg = Args.quiet a /\
  Config.log_to_stderr cfg = Args.log_to_stderr a /\
  Config.width cfg = Args.width a /\
  Config.file_output cfg = Args.file_output a /\
  Config.slack_output cfg = Args.slack_output a /\
  Config.other_args cfg = Args.strategy_args a.
Proof.
  intros Hnone. unfold run_strategy.
  destruct (load_str cell p) as [s|e0];
    [|cbn [snd]; rewrite Hnone; intros H; discriminate H].
  destruct (Config_kwargs s a) as [kw|e0] eqn:Hk;
    [|cbn [snd]; rewrite Hnone; intros H; discriminate H].
  destruct (Config_validate kw); cbn [snd].
  - cbn [Runner_run snd emit set_config current_config]. intros H.
    inversion H; subst kw.
    unfold Config_kwargs in Hk.
    apply bind_Ok_inv in Hk as (sn & _ & Hk).
    apply bind_Ok_inv in Hk as (sr & _ & Hk).
    inversion Hk. cbn. repeat split; reflexivity.
  - cbn [emit current_config]. rewrite Hnone. intros H. discriminate H.
Qed.


End Main.

(** ** The theorems at concrete inputs *)

(** C7 at a structured object type. *)
Lemma process_type_total_witness :
  (exists prim, process_type (TOther "ResourceLimits") = Ok prim /\ In prim cli_primitives) /\
  process_type (TOther "ResourceLimits") = Ok Tstr.
Proof.
  destruct (process_type_total ascii_isidentifier (TOther "ResourceLimits") eq_refl) as (H1 & H2 & _).
  split; [exact H1 | exact (H2 "ResourceLimits" eq_refl)].
Defined.

(** C9: a field without description gets the help text None, not the
    empty text. *)
Lemma help_or_empty_counterexample :
  (exists prm o,
     description (snd field_without_description) = None /\
     strategy_parameter ascii_isidentifier field_without_description = Ok prm /\
     default prm = DefaultOption o /\
     help o = "None") /\
  ~ help_or_empty ascii_isidentifier field_without_description.
Proof.
  split.
  - exists (field_option field_without_description Tint).
    eexists. repeat split; reflexivity.
  - intros H.
    specialize (H (field_option field_without_description Tint) _ eq_refl eq_refl).
    simpl in H. discriminate H.
Qed.

(** C9 (amended) at the same field and at a field with a description. *)
Lemma help_is_formatted_description_witness :
  help (mkOption (PyInt 100) ["--points_required"] "None" "Strategy Settings" false)
    = "None".
Proof.
  exact (help_is_formatted_description ascii_isidentifier field_without_description
           (field_option field_without_description Tint) _ eq_refl eq_refl).
Defined.

(** C3 at a negative CPU floor. *)
Lemma validation_failure_is_atomic_witness :
  let (r, p') :=
    run_strategy floors_validate runner_returns 0
      (set_cpu_min_value (-5) (sample_args [] [] []))
      (process_with_name "simple") in
  r = Ok tt /\
  current_config p' = current_config (process_with_name "simple") /\
  events p' = events (process_with_name "simple")
                ++ [EvLogException "Error occured while parsing arguments"] /\
  (forall c, In (EvRunnerRun c) (events p') ->
             In (EvRunnerRun c) (events (process_with_name "simple"))) /\
  cells p' = cells (process_with_name "simple") /\
  registered_commands p' = registered_commands (process_with_name "simple").
Proof.
  eapply (validation_failure_is_atomic floors_validate runner_returns 0
            (set_cpu_min_value (-5) (sample_args [] [] []))
            (process_with_name "simple") "simple"); reflexivity.
Defined.

(** C4 at the cluster list c1, c2, with the all-clusters flag set and
    with the flag unset. *)
Lemma clusters_wildcard_override_witness :
  (exists cfg,
     Config_kwargs "simple"
       (set_clusters true (Some ["c1"; "c2"]) (sample_args [] [] [])) = Ok cfg /\
     Config.clusters cfg = SelStr "*" /\
     current_config
       (snd (run_strategy floors_validate runner_returns 0
               (set_clusters true (Some ["c1"; "c2"]) (sample_args [] [] []))
               (process_with_name "simple"))) = Some cfg) /\
  (exists cfg,
     Config_kwargs "simple"
       (set_clusters false (Some ["c1"; "c2"]) (sample_args [] [] [])) = Ok cfg /\
     Config.clusters cfg = SelList ["c1"; "c2"]) /\
  (exists cfg,
     Config_kwargs "simple"
       (set_clusters false None (sample_args [] [] [])) = Ok cfg /\
     Config.clusters cfg = SelNone).
Proof.
  split; [|split].
  - eexists. split; [reflexivity|].
    destruct (clusters_wildcard_override floors_validate runner_returns 0
                (set_clusters true (Some ["c1"; "c2"]) (sample_args [] [] []))
                (process_with_name "simple") "simple" _ eq_refl eq_refl)
      as (H1 & _ & _ & H4).
    split; [exact (H1 eq_refl) | exact (H4 eq_refl)].
  - eexists. split; [reflexivity|].
    destruct (clusters_wildcard_override floors_validate runner_returns 0
                (set_clusters false (Some ["c1"; "c2"]) (sample_args [] [] []))
                (process_with_name "simple") "simple" _ eq_refl eq_refl)
      as (_ & H2 & _ & _).
    exact (H2 eq_refl ["c1"; "c2"] eq_refl).
  - eexists. split; [reflexivity|].
    destruct (clusters_wildcard_override floors_validate runner_returns 0
                (set_clusters false None (sample_args [] [] []))
                (process_with_name "simple") "simple" _ eq_refl eq_refl)
      as (_ & _ & H3 & _).
    exact (H3 eq_refl eq_refl).
Defined.

(** C5 at the namespaces star, foo and the resources Deployment. *)
Lemma wildcard_dominates_lists_witness :
  exists cfg,
    Config_kwargs "simple"
      (sample_args ["*"; "foo"] ["Deployment"] []) = Ok cfg /\
    Config.namespaces cfg = SelStr "*" /\
    Config.resources cfg = SelList ["Deployment"].
Proof.
  eexists. split; [reflexivity|].
  destruct (wildcard_dominates_lists floors_validate runner_returns 0
              (sample_args ["*"; "foo"] ["Deployment"] [])
              (process_with_name "simple") "simple" _ ["*"; "foo"] ["Deployment"]
              eq_refl eq_refl eq_refl eq_refl)
    as (H1 & _ & _ & H4 & _).
  split.
  - apply H1. simpl. tauto.
  - apply H4. simpl. intros [H|[]]. discriminate H.
Defined.

(** C6 at the default invocation of the strategy named simple, with a
    command-line layer that hands over empty lists and a Runner that
    returns. *)
Lemma success_commits_then_runs_witness :
  exists a cfg,
    default_args formatters_sample (Some []) [] = Some a /\
    Config_kwargs "simple" a = Ok cfg /\
    run_strategy floors_validate runner_returns 0 a (process_with_name "simple")
    = (Ok tt, emit (EvRunnerRun (Some cfg))
                (set_config cfg (process_with_name "simple"))) /\
    Config.strategy cfg = "simple" /\
    Config.cpu_min_value cfg = 10%Z /\
    Config.memory_min_value cfg = 100%Z /\
    Config.format cfg = "table".
Proof.
  destruct (default_args formatters_sample (Some []) []) as [a|] eqn:Ha;
    [|vm_compute in Ha; discriminate Ha].
  destruct (Config_kwargs "simple" a) as [cfg|e] eqn:Hk;
    [|vm_compute in Ha; inversion Ha; subst a; vm_compute in Hk; discriminate Hk].
  assert (Hv : floors_validate cfg = true).
  { vm_compute in Ha. inversion Ha; subst a. vm_compute in Hk.
    inversion Hk. reflexivity. }
  pose proof (success_commits_then_runs floors_validate formatters_sample
                runner_returns (Some []) 0 a (process_with_name "simple")
                "simple" cfg eq_refl Hk Hv) as H.
  exists a, cfg. split; [reflexivity|]. split; [exact Hk|].
  destruct (run_strategy floors_validate runner_returns 0 a
              (process_with_name "simple")) as [r q] eqn:Hrun.
  destruct H as ((Hr & _) & H & _).
  split.
  - unfold run_strategy in Hrun. cbn [load_str process_with_name cells] in Hrun.
    cbn in Hrun. rewrite Hk, Hv in Hrun. cbn in Hrun. now rewrite <- Hrun.
  - exact (H [] eq_refl Ha).
Defined.

(** C10 at the declared defaults, where namespaces and resources are
    [None]. *)
Lemma run_strategy_requires_lists_witness :
  run_strategy floors_validate runner_returns 0
    (set_lists None None (sample_args [] [] []))
    (process_with_name "simple")
  = (Raise TypeError, process_with_name "simple").
Proof.
  destruct (run_strategy_requires_lists floors_validate runner_returns 0
              (set_lists None None (sample_args [] [] []))
              (process_with_name "simple") "simple" eq_refl) as (H & _ & _).
  exact (proj2 (H (or_introl eq_refl))).
Defined.

(** C1 at the registry A, B, C: the command of A, called after the whole
    loop has run, assembles a configuration for A. *)
Lemma handler_closes_over_own_name_witness :
  exists p' cmd cfg,
    load_commands formatters_sample ascii_isidentifier registry_ABC app_initial = Ok p' /\
    registered_commands p' !! 1 = Some cmd /\
    fn_name (callback cmd) = "A" /\
    Config_kwargs "A" (sample_args [] [] []) = Ok cfg /\
    Config.strategy cfg = "A" /\
    current_config
      (snd (call floors_validate version_sample runner_returns (callback cmd)
              (sample_args [] [] []) p')) = Some cfg.
Proof.
  destruct (load_commands formatters_sample ascii_isidentifier registry_ABC app_initial)
    as [p'|e] eqn:Hload; [|vm_compute in Hload; discriminate Hload].
  destruct (handler_closes_over_own_name floors_validate formatters_sample
              version_sample ascii_isidentifier runner_returns registry_ABC app_initial p' Hload
              0 ("A", settings_A) eq_refl)
    as (cmd & Hcmd & Hname & Hcall).
  destruct (Hcall (sample_args [] [] []) [] [] eq_refl eq_refl)
    as (cfg & Hk & Hs & Hc).
  exists p', cmd, cfg.
  split; [reflexivity|]. split; [exact Hcmd|]. split; [exact Hname|].
  split; [exact Hk|]. split; [exact Hs|].
  rewrite Hc. vm_compute in Hk. inversion Hk. reflexivity.
Defined.

(** C8 at the registry A, B, C: the command of A has the fixed parameters
    followed by the two options of the settings of A. *)
Lemma synthesized_option_set_witness :
  exists p' cmd added,
    load_commands formatters_sample ascii_isidentifier registry_ABC app_initial = Ok p' /\
    registered_commands p' !! 1 = Some cmd /\
    fn_signature (callback cmd) = fixed_parameters formatters_sample ++ added /\
    List.filter is_option (fn_signature (callback cmd))
      = global_options formatters_sample ++ added /\
    map name added = ["history_duration"; "points_required"] /\
    NoDup (map name (fn_signature (callback cmd))).
Proof.
  destruct (load_commands formatters_sample ascii_isidentifier registry_ABC app_initial)
    as [p'|e] eqn:Hload; [|vm_compute in Hload; discriminate Hload].
  destruct (synthesized_option_set formatters_sample ascii_isidentifier registry_ABC app_initial
              p' Hload 0 ("A", settings_A) eq_refl)
    as (cmd & added & Hcmd & _ & Hsig & Hopt & Hfields & Hnd).
  exists p', cmd, added.
  split; [reflexivity|]. split; [exact Hcmd|]. split; [exact Hsig|].
  split; [exact Hopt|]. split; [|exact Hnd].
  simpl in Hfields.
  inversion Hfields as [|f1 p1 fs1 ps1 (Hn1 & _) Hrest1]; subst.
  inversion Hrest1 as [|f2 p2 fs2 ps2 (Hn2 & _) Hrest2]; subst.
  inversion Hrest2; subst. simpl. now rewrite Hn1, Hn2.
Defined.

(** ** The further properties at concrete inputs *)

(** Idempotence at a generic alias: it narrows to [str], and [str] to
    itself. *)
Lemma process_type_idempotent_witness :
  process_type (TOther "List[int]") = Ok Tstr /\ process_type Tstr = Ok Tstr.
Proof.
  split; [reflexivity|].
  exact (process_type_idempotent (TOther "List[int]") Tstr eq_refl).
Defined.

(** The registry A, B, C on the application that holds [version]. *)
Lemma load_commands_registers_in_order_witness :
  exists p' cmds,
    load_commands formatters_sample ascii_isidentifier registry_ABC app_initial = Ok p' /\
    registered_commands p' = registered_commands app_initial ++ cmds /\
    map (fun cmd => fn_name (callback cmd)) cmds = ["A"; "B"; "C"] /\
    current_config p' = None /\
    events p' = [].
Proof.
  destruct (load_commands formatters_sample ascii_isidentifier registry_ABC app_initial)
    as [p'|e] eqn:Hload; [|vm_compute in Hload; discriminate Hload].
  destruct (load_commands_registers_in_order formatters_sample ascii_isidentifier registry_ABC
              app_initial p' Hload)
    as (cmds & Hreg & Hnames & _ & Hcur & Hev).
  exists p', cmds. repeat split; assumption.
Defined.

(** After the loop over A, B, C the loop variable holds C. *)
Lemma loop_variable_holds_last_strategy_witness :
  exists p',
    load_commands formatters_sample ascii_isidentifier registry_ABC app_initial = Ok p' /\
    load_str 0 p' = Ok "C" /\
    load_strategy 1 p' = Ok settings_C.
Proof.
  destruct (load_commands formatters_sample ascii_isidentifier registry_ABC app_initial)
    as [p'|e] eqn:Hload; [|vm_compute in Hload; discriminate Hload].
  exists p'. split; [reflexivity|].
  exact (loop_variable_holds_last_strategy formatters_sample ascii_isidentifier registry_ABC
           app_initial p' "C" settings_C Hload eq_refl).
Defined.

(** The run recorded by a valid invocation of simple, and a Runner that
    raises: its exception leaves the handler with the configuration
    committed. *)
Lemma runner_runs_only_on_validated_config_witness :
  (exists cfg,
     Config_kwargs "simple" (sample_args [] [] []) = Ok cfg /\
     floors_validate cfg = true /\
     current_config
       (snd (run_strategy floors_validate runner_returns 0 (sample_args [] [] [])
               (process_with_name "simple"))) = Some cfg) /\
  (exists cfg,
     fst (run_strategy floors_validate runner_raises 0 (sample_args [] [] [])
            (process_with_name "simple")) = Raise (PyException "ApiException") /\
     snd (run_strategy floors_validate runner_raises 0 (sample_args [] [] [])
            (process_with_name "simple"))
     = emit (EvRunnerRun (Some cfg)) (set_config cfg (process_with_name "simple"))).
Proof.
  split.
  - eexists. split; [reflexivity|].
    destruct (proj1 (runner_runs_only_on_validated_config floors_validate
                       runner_returns 0 (sample_args [] [] [])
                       (process_with_name "simple")) _ (or_introl eq_refl))
      as [Hold|(cfg & Hc & Hv & Hcur)].
    + destruct Hold.
    + inversion Hc. subst cfg. split; [exact Hv | exact Hcur].
  - destruct (proj2 (runner_runs_only_on_validated_config floors_validate
                       runner_raises 0 (sample_args [] [] [])
                       (process_with_name "simple")) _ eq_refl)
      as [Hsame|(cfg & _ & _ & Hsnd)].
    + vm_compute in Hsame. discriminate Hsame.
    + exists cfg. split; [reflexivity | exact Hsnd].
Defined.

(** A call with a CPU floor of 250 and one strategy keyword value. *)
Lemma committed_config_passes_options_through_witness :
  exists cfg,
    current_config
      (snd (run_strategy floors_validate runner_returns 0
              (set_cpu_min_value 250
                 (sample_args [] [] [("history_duration", PyInt 24)]))
              (process_with_name "simple"))) = Some cfg /\
    Config.cpu_min_value cfg = 250%Z /\
    Config.other_args cfg = [("history_duration", PyInt 24)].
Proof.
  eexists. split; [reflexivity|].
  pose proof (committed_config_passes_options_through floors_validate runner_returns 0
                (set_cpu_min_value 250
                   (sample_args [] [] [("history_duration", PyInt 24)]))
                (process_with_name "simple") _ eq_refl eq_refl) as H.
  split; [apply H | apply H].
Defined.

(** A settings field named like a global parameter is refused when the
    signature is replaced: the synthesis fails at start-up. *)
Example load_commands_name_collision :
  load_commands formatters_sample ascii_isidentifier
    [("B", mkStrategy [("verbose", mkField (PyBool false) Tbool None)])]
    app_initial
  = Raise ValueError.
Proof. vm_compute. reflexivity. Qed.

(** The registry A, B, C is well formed, so its synthesis returns. *)
Example load_commands_ABC_succeeds :
  exists p', load_commands formatters_sample ascii_isidentifier registry_ABC app_initial = Ok p'.
Proof.
  apply load_commands_succeeds.
  assert (Hfield : forall f,
            ascii_isidentifier (fst f) = true -> iskeyword (fst f) = false ->
            is_Optional (type_ (snd f)) = false ->
            str_in (fst f) (map name (fixed_parameters formatters_sample)) = false ->
            ascii_isidentifier (fst f) = true /\ iskeyword (fst f) = false /\
            is_Optional (type_ (snd f)) = false /\
            ~ In (fst f) (map name (fixed_parameters formatters_sample))).
  { intros f H1 H2 H3 H4. repeat split; try assumption.
    intros Hin. apply str_in_In in Hin. congruence. }
  assert (Hnotin : forall (x : string) l, ~ In x l -> x ∉ l).
  { intros x l Hx Hin. apply Hx. now apply list_elem_of_In. }
  unfold registry_ABC.
  repeat first [apply List.Forall_nil | apply List.Forall_cons];
    unfold well_formed_settings;
    cbn [settings_fields settings_A settings_B settings_C snd].
  - split.
    + repeat first [apply List.Forall_nil | apply List.Forall_cons];
        apply Hfield; vm_compute; reflexivity.
    + cbn [map fst]. repeat apply NoDup_cons_2; try apply NoDup_nil_2;
        apply Hnotin; simpl; intuition discriminate.
  - split.
    + repeat first [apply List.Forall_nil | apply List.Forall_cons];
        apply Hfield; vm_compute; reflexivity.
    + cbn [map fst]. repeat apply NoDup_cons_2; try apply NoDup_nil_2;
        apply Hnotin; simpl; intuition discriminate.
  - split.
    + repeat first [apply List.Forall_nil | apply List.Forall_cons];
        apply Hfield; vm_compute; reflexivity.
    + cbn [map fst]. repeat apply NoDup_cons_2; try apply NoDup_nil_2;
        apply Hnotin; simpl; intuition discriminate.
Qed.
